(** * Products API: the controller of [controllers/products] over the
    [Product] model of [models/products]

    The five request handlers ([getProducts], [getProductById],
    [createProduct], [updateProduct], [deleteProduct]) are embedded as
    small interaction programs: a handler either answers at once or awaits
    one call on the [Product] model and continues with the settled promise.
    The model itself (Mongoose over a MongoDB collection) is an external
    collaborator; it is given a reference semantics over an in-memory
    collection, driven by [productSchema] as declared in the source. *)

From Stdlib Require Import QArith Ascii String DecimalString.
From stdpp Require Import gmap strings list fin_maps.

#[local] Set Warnings "-register-all".
#[local] Open Scope string_scope.
#[local] Open Scope N_scope.

(** ** JavaScript values *)

(** An IEEE number, as far as the handlers can tell numbers apart: the
    finite ones are rationals. *)
Inductive number :=
| Finite (q : Q)
| PosInf
| NegInf
| NaN.

(** What [JSON.parse] produces, plus [undefined] for a property that is
    not there. *)
Inductive JsValue :=
| JUndefined
| JNull
| JBool (b : bool)
| JNumber (n : number)
| JString (s : string)
| JArray (l : list JsValue)
| JObject (o : gmap string JsValue).

Definition is_NaN (n : number) : bool :=
  match n with NaN => true | _ => false end.

Definition is_zero (n : number) : bool :=
  match n with Finite q => Qeq_bool q 0 | _ => false end.

(** [a >= b] on numbers; any comparison with [NaN] is false. *)
Definition num_ge (a b : number) : bool :=
  match a, b with
  | NaN, _ | _, NaN => false
  | PosInf, _ => true
  | _, NegInf => true
  | NegInf, _ => false
  | _, PosInf => false
  | Finite x, Finite y => Qle_bool y x
  end.

(** [a < b] on numbers. *)
Definition num_lt (a b : number) : bool :=
  match a, b with
  | NaN, _ | _, NaN => false
  | PosInf, _ => false
  | _, NegInf => false
  | NegInf, _ => true
  | _, PosInf => true
  | Finite x, Finite y => negb (Qle_bool y x)
  end.

(** [a == b] on numbers. *)
Definition num_eq (a b : number) : bool :=
  match a, b with
  | Finite x, Finite y => Qeq_bool x y
  | PosInf, PosInf | NegInf, NegInf => true
  | _, _ => false
  end.

Definition string_is_empty (s : string) : bool :=
  match s with EmptyString => true | String _ _ => false end.

(** ToBoolean: what [if (v)] and [!v] look at. *)
Definition truthy (v : JsValue) : bool :=
  match v with
  | JUndefined | JNull => false
  | JBool b => b
  | JNumber n => negb (is_zero n || is_NaN n)
  | JString s => negb (string_is_empty s)
  | JArray _ | JObject _ => true
  end.

(** [v === undefined] *)
Definition is_undefined (v : JsValue) : bool :=
  match v with JUndefined => true | _ => false end.

(** [v.k] for the property names the handlers read ([name], [brand],
    [category], [price], [inStock]): only an object can own them. *)
Definition get (v : JsValue) (k : string) : JsValue :=
  match v with
  | JObject o => default JUndefined (o !! k)
  | _ => JUndefined
  end.

(** An object literal. *)
Definition object (l : list (string * JsValue)) : JsValue :=
  JObject (list_to_map l).

(** A thrown [Error]: its name and message, and what its [toString] returns
    when its class overrides [Error.prototype.toString]. *)
Record Error := {
  err_name : string;
  err_message : string;
  err_toString : option string
}.

(** [String(err)]: the error's own [toString], or else
    [Error.prototype.toString]. *)
Definition String_ (e : Error) : string :=
  match err_toString e with
  | Some s => s
  | None =>
      if string_is_empty (err_name e) then err_message e
      else if string_is_empty (err_message e) then err_name e
      else err_name e +:+ ": " +:+ err_message e
  end.

(** The conversions of the JavaScript runtime that Mongoose's casts and
    messages go through and that are not re-implemented here. *)
Class Runtime := {
  StringToNumber : string -> number;   (* Number(s) *)
  NumberToString : number -> string;   (* n.toString() *)
  inspect : JsValue -> string;         (* util.inspect(v) *)
  (* Object.keys(o): the keys in the order the object was written in, which
     the map does not record *)
  ObjectKeys : gmap string JsValue -> list string
}.

(** ** ObjectId: twelve bytes, written as 24 hexadecimal digits *)

Module ObjectId.

Definition hex_digit (d : N) : ascii :=
  match d with
  | 0 => "0" | 1 => "1" | 2 => "2" | 3 => "3" | 4 => "4" | 5 => "5"
  | 6 => "6" | 7 => "7" | 8 => "8" | 9 => "9" | 10 => "a" | 11 => "b"
  | 12 => "c" | 13 => "d" | 14 => "e" | _ => "f"
  end%char.

(** /[0-9a-fA-F]/ *)
Definition hex_value (c : ascii) : option N :=
  let n := N_of_ascii c in
  if (48 <=? n) && (n <=? 57) then Some (n - 48)
  else if (97 <=? n) && (n <=? 102) then Some (n - 87)
  else if (65 <=? n) && (n <=? 70) then Some (n - 55)
  else None.

(** The last [k] hexadecimal digits of [n], most significant first. *)
Fixpoint to_hex (k : nat) (n : N) (acc : string) : string :=
  match k with
  | O => acc
  | S k' => to_hex k' (n / 16) (String (hex_digit (n mod 16)) acc)
  end.

Fixpoint of_hex (s : string) (acc : N) : option N :=
  match s with
  | EmptyString => Some acc
  | String c s' =>
      match hex_value c with
      | Some d => of_hex s' (16 * acc + d)
      | None => None
      end
  end.

Definition space : N := 2 ^ 96.

Definition toHexString (n : N) : string := to_hex 24 n EmptyString.

(** The cast of a string to an ObjectId: exactly 24 hexadecimal digits
    (the rule of bson 6; older drivers also took any string of 12
    characters for the 12 bytes). *)
Definition fromString (s : string) : option N :=
  if (String.length s =? 24)%nat then of_hex s 0 else None.

End ObjectId.

(** [mongoose.isValidObjectId(id)] for a route parameter, which is a string
    or [undefined]. *)
Definition isValidObjectId (id : option string) : bool :=
  match id with
  | Some s => bool_decide (is_Some (ObjectId.fromString s))
  | None => false
  end.

(** ** The schema of [models/products] *)

(** A stored (BSON) value of one of the schema's types. *)
Inductive Bson :=
| BNull
| BString (s : string)
| BNumber (n : number)
| BBool (b : bool).

(** [type: String | Number | Boolean] *)
Inductive PathType := SchemaString | SchemaNumber | SchemaBoolean.

(** The options of one path: [required: [true, msg]], [min: [bound, msg]],
    [default: v]. *)
Record SchemaType := {
  st_type : PathType;
  st_required : option string;
  st_min : option (number * string);
  st_default : option Bson
}.

Definition productSchema : list (string * SchemaType) :=
  [ ("name",
     {| st_type := SchemaString; st_required := Some "Name Required";
        st_min := None; st_default := None |});
    ("brand",
     {| st_type := SchemaString; st_required := Some "Brand Required";
        st_min := None; st_default := None |});
    ("category",
     {| st_type := SchemaString; st_required := Some "Category Required";
        st_min := None; st_default := None |});
    ("price",
     {| st_type := SchemaNumber; st_required := Some "Price Required";
        st_min := Some (Finite 0, "Price cannot be negative");
        st_default := None |});
    ("inStock",
     {| st_type := SchemaBoolean; st_required := None;
        st_min := None; st_default := Some (BBool true) |}) ].

(** The name [mongoose.model("Product", productSchema)] registers. *)
Definition modelName : string := "Product".

(** The version key Mongoose adds to every schema: a [Number] path with no
    validator, set to 0 when a document is inserted. *)
Definition versionKey : string := "__v".

Definition versionType : SchemaType :=
  {| st_type := SchemaNumber; st_required := None; st_min := None;
     st_default := None |}.

(** Every path of the compiled schema but [_id]. *)
Definition schema_paths : list (string * SchemaType) :=
  productSchema ++ [(versionKey, versionType)].

Definition schema_path (k : string) : option SchemaType :=
  (list_to_map schema_paths : gmap string SchemaType) !! k.

(** A document of the collection. *)
Record Document := { _id : N; fields : gmap string Bson }.

(** How a round trip to the server fails: the operation never reaches the
    server, or the server carries it out and its reply is lost. *)
Inductive Fault :=
| Unreachable (e : Error)
| ReplyLost (e : Error).

(** The collection behind the model: its documents in insertion order, the
    ObjectId the driver will hand out next, and the way every round trip to
    the server currently fails, if it does. *)
Record Db := { docs : list Document; next_id : N; fault : option Fault }.

(** [JSON.stringify] of a stored value: JSON has no [Infinity] and no
    [NaN], they are written [null]. *)
Definition json_of_bson (b : Bson) : JsValue :=
  match b with
  | BNull => JNull
  | BString s => JString s
  | BNumber (Finite q) => JNumber (Finite q)
  | BNumber _ => JNull
  | BBool b => JBool b
  end.

(** The defaults the schema declares. *)
Definition defaults : gmap string Bson :=
  list_to_map (omap (λ p, (λ d, (p.1, d)) <$> st_default p.2) productSchema).

(** The fields of a document as Mongoose loads it: a path the stored
    document lacks takes the schema's default. *)
Definition withDefaults (m : gmap string Bson) : gmap string Bson :=
  m ∪ defaults.

(** What [res.json] sends for a document. *)
Definition toJSON (d : Document) : JsValue :=
  JObject (<["_id" := JString (ObjectId.toHexString (_id d))]>
             (json_of_bson <$> withDefaults (fields d))).

(** ** Mongoose: casting and validation *)

(** The outcome of casting a value to a path's type: a stored value, nothing
    (the value was [undefined]), or a [CastError]. *)
Inductive Cast :=
| Casted (b : Bson)
| Unset
| CastFailed.

(** A settled promise. *)
Inductive Settled (X : Type) :=
| Fulfilled (x : X)
| Rejected (e : Error).
Arguments Fulfilled {X} x.
Arguments Rejected {X} e.

Definition dquote : string := String (ascii_of_N 34) EmptyString.

Definition join (sep : string) (l : list string) : string :=
  match l with
  | [] => EmptyString
  | s :: l' => fold_left (λ acc x, acc +:+ sep +:+ x) l' s
  end.

(** A trailing single quote becomes a double quote. *)
Fixpoint unquote_end (s : string) : string :=
  match s with
  | EmptyString => EmptyString
  | String "'" EmptyString => dquote
  | String c s' => String c (unquote_end s')
  end.

Section Mongoose.
Context {rt : Runtime}.

(** [castString] (lib/cast/string.js): numbers and booleans are written
    out, an object only passes through its string [_id]. *)
Definition castString (v : JsValue) : Cast :=
  match v with
  | JUndefined => Unset
  | JNull => Casted BNull
  | JString s => Casted (BString s)
  | JNumber n => Casted (BString (NumberToString n))
  | JBool b => Casted (BString (if b then "true" else "false"))
  | JArray _ => CastFailed
  | JObject o =>
      match o !! "_id" with
      | Some (JString s) =>
          if string_is_empty s then CastFailed else Casted (BString s)
      | _ => CastFailed
      end
  end.

(** [value && typeof value._id !== 'undefined' ? value._id : value]: the
    Number path takes a value that has an [_id] for that [_id]. *)
Definition unwrapId (v : JsValue) : JsValue :=
  if is_undefined (get v "_id") then v else get v "_id".

(** [castNumber] (lib/cast/number.js): the empty string is [null], other
    strings and booleans go through [Number], and [NaN], arrays and objects
    are refused. *)
Definition castNumberValue (v : JsValue) : Cast :=
  match v with
  | JUndefined => Unset
  | JNull => Casted BNull
  | JString s =>
      if string_is_empty s then Casted BNull
      else let n := StringToNumber s in
           if is_NaN n then CastFailed else Casted (BNumber n)
  | JBool b => Casted (BNumber (Finite (if b then 1 else 0)))
  | JNumber n => if is_NaN n then CastFailed else Casted (BNumber n)
  | JArray _ | JObject _ => CastFailed
  end.

(** [SchemaNumber.prototype.cast] (lib/schema/number.js) *)
Definition castNumber (v : JsValue) : Cast := castNumberValue (unwrapId v).

(** [castBoolean] (lib/cast/boolean.js), with its [convertToTrue] and
    [convertToFalse] sets. *)
Definition castBoolean (v : JsValue) : Cast :=
  match v with
  | JUndefined => Unset
  | JNull => Casted BNull
  | JBool b => Casted (BBool b)
  | JString s =>
      if bool_decide (s = "true") || bool_decide (s = "1")
         || bool_decide (s = "yes") then Casted (BBool true)
      else if bool_decide (s = "false") || bool_decide (s = "0")
              || bool_decide (s = "no") then Casted (BBool false)
      else CastFailed
  | JNumber n =>
      if num_eq n (Finite 1) then Casted (BBool true)
      else if num_eq n (Finite 0) then Casted (BBool false)
      else CastFailed
  | JArray _ | JObject _ => CastFailed
  end.

Definition cast (ty : PathType) (v : JsValue) : Cast :=
  match ty with
  | SchemaString => castString v
  | SchemaNumber => castNumber v
  | SchemaBoolean => castBoolean v
  end.

Definition kind (ty : PathType) : string :=
  match ty with
  | SchemaString => "string"
  | SchemaNumber => "Number"
  | SchemaBoolean => "Boolean"
  end.

Definition valueType (v : JsValue) : string :=
  match v with
  | JUndefined => "undefined"
  | JNull => "null"
  | JBool _ => "boolean"
  | JNumber _ => "number"
  | JString _ => "string"
  | JArray _ => "Array"
  | JObject _ => "Object"
  end.

(** [getStringValue] (lib/error/cast.js): [util.inspect(value)] with a
    leading and a trailing single quote turned into double quotes, and
    wrapped in double quotes when it does not begin with one. *)
Definition getStringValue (v : JsValue) : string :=
  let s := match inspect v with
           | String "'" s' => dquote +:+ s'
           | s => s
           end in
  let s := unquote_end s in
  if String.prefix dquote s then s else dquote +:+ s +:+ dquote.

(** The message of a [CastError]. *)
Definition castMessage (k : string) (v : JsValue) (path : string) : string :=
  "Cast to " +:+ k +:+ " failed for value " +:+ getStringValue v +:+ " (type "
  +:+ valueType v +:+ ") at path " +:+ dquote +:+ path +:+ dquote.

(** The message of the [CastError] a path of a document or of an update
    raises. The Number path reports the value it tried to cast; the Boolean
    path wraps the [CastError] of [castBoolean], and says so. *)
Definition castFailure (ty : PathType) (v : JsValue) (path : string) : string :=
  match ty with
  | SchemaString => castMessage "string" v path
  | SchemaNumber => castMessage "Number" (unwrapId v) path
  | SchemaBoolean =>
      castMessage "Boolean" v path +:+ " because of " +:+ dquote
      +:+ "CastError" +:+ dquote
  end.

Definition CastError (ty : PathType) (v : JsValue) (path : string) : Error :=
  {| err_name := "CastError"; err_message := castFailure ty v path;
     err_toString := None |}.

(** A [CastError] raised while casting a query's conditions: it names the
    model, and no longer the reason. *)
Definition QueryCastError (k : string) (v : JsValue) (path : string) : Error :=
  {| err_name := "CastError";
     err_message := castMessage k v path +:+ " for model " +:+ dquote
                    +:+ modelName +:+ dquote;
     err_toString := None |}.

(** The [required] validator's test, per type ([checkRequired]). *)
Definition checkRequired (ty : PathType) (c : Cast) : bool :=
  match ty, c with
  | SchemaString, Casted (BString s) => negb (string_is_empty s)
  | SchemaNumber, Casted (BNumber _) => true
  | SchemaBoolean, Casted (BBool _) => true
  | _, _ => false
  end.

(** The [min] validator's test: [v == null || v >= bound]. *)
Definition checkMin (bound : number) (c : Cast) : bool :=
  match c with
  | Casted (BNumber n) => num_ge n bound
  | _ => true
  end.

(** The validators of one path, in order; the first that fails gives the
    path's error message. *)
Definition doValidate (st : SchemaType) (c : Cast) : option string :=
  match st_required st with
  | Some msg => if checkRequired (st_type st) c then None else Some msg
  | None => None
  end
  ∪
  match st_min st with
  | Some (bound, msg) => if checkMin bound c then None else Some msg
  | None => None
  end.

(** The error of one path, if any: a failed cast, or a failed validator. *)
Definition pathError (path : string) (st : SchemaType) (v : JsValue)
    (c : Cast) : option string :=
  match c with
  | CastFailed => Some (castFailure (st_type st) v path)
  | _ => doValidate st c
  end.

Definition combinePathErrors (errors : list (string * string)) : string :=
  join ", " ((λ e, e.1 +:+ ": " +:+ e.2) <$> errors).

(** A [ValidationError] (lib/error/validation.js): its message begins with
    [_message], its [toString] with its name. *)
Definition ValidationError (_message : string)
    (errors : list (string * string)) : Error :=
  {| err_name := "ValidationError";
     err_message := _message +:+ ": " +:+ combinePathErrors errors;
     err_toString := Some ("ValidationError: " +:+ combinePathErrors errors) |}.

(** A path that was not set takes the schema's default. *)
Definition applyDefault (st : SchemaType) (c : Cast) : Cast :=
  match c, st_default st with
  | Unset, Some d => Casted d
  | _, _ => c
  end.

(** [new Product(obj)]: every path of the schema, with the value given for
    it and its cast (or default). *)
Definition hydrate (obj : JsValue) : list (string * SchemaType * JsValue * Cast) :=
  (λ p, (p.1, p.2, get obj p.1,
         applyDefault p.2 (cast (st_type p.2) (get obj p.1)))) <$> productSchema.

(** The errors of a document: those of the casts, recorded while the
    document is built, then those of the validators. *)
Definition errorsOf (l : list (string * SchemaType * JsValue * Cast))
    : list (string * string) :=
  omap (λ '(path, st, v, c),
          match c with
          | CastFailed => (λ msg, (path, msg)) <$> pathError path st v c
          | _ => None
          end) l
  ++ omap (λ '(path, st, v, c),
             match c with
             | CastFailed => None
             | _ => (λ msg, (path, msg)) <$> pathError path st v c
             end) l.

(** [errors] in the order of [keys]; what [keys] does not name comes last. *)
Definition inKeyOrder {A} (keys : list string) (errors : list (string * A))
    : list (string * A) :=
  omap (λ k, (λ e, (k, e)) <$> (list_to_map errors : gmap string A) !! k) keys
  ++ List.filter (λ e, negb (bool_decide (e.1 ∈ keys))) errors.

(** The stored values among cast paths. *)
Definition castedOf (l : list (string * SchemaType * JsValue * Cast))
    : list (string * Bson) :=
  omap (λ '(path, _, _, c),
          match c with Casted b => Some (path, b) | _ => None end) l.

End Mongoose.

(** ** Mongoose: the model's operations on the collection

    The reference semantics covers plain field maps. Query and update
    operators (keys that begin with a dollar sign), query parameters that
    are arrays or objects, updates of [_id] and payloads that are not
    objects are not interpreted: on those the operations below are
    undefined ([None]). *)

(** [options] of [findByIdAndUpdate]. *)
Record QueryOptions := { runValidators : bool; new : bool }.

Definition is_operator (k : string) : bool := String.prefix "$" k.

Definition findDoc (n : N) (l : list Document) : option Document :=
  List.find (λ d, _id d =? n) l.

(** Replaces the first document whose [_id] is [n]. *)
Fixpoint replaceDoc (n : N) (d' : Document) (l : list Document)
    : list Document :=
  match l with
  | [] => []
  | d :: l' => if _id d =? n then d' :: l' else d :: replaceDoc n d' l'
  end.

(** Removes the first document whose [_id] is [n]. *)
Fixpoint removeDoc (n : N) (l : list Document) : list Document :=
  match l with
  | [] => []
  | d :: l' => if _id d =? n then l' else d :: removeDoc n l'
  end.

(** Equality of a stored field with a cast query value; [null] also
    matches a field that is missing. *)
Definition bsonMatches (q : Bson) (stored : option Bson) : bool :=
  match q, stored with
  | BNull, (None | Some BNull) => true
  | BString s, Some (BString s') => bool_decide (s = s')
  | BNumber n, Some (BNumber n') => num_eq n n'
  | BBool b, Some (BBool b') => bool_decide (b = b')
  | _, _ => false
  end.

(** One round trip to the server for an operation whose outcome is [k]. A
    fault rejects the call; when it is the reply that is lost, the operation
    has been carried out all the same. *)
Definition roundTrip {X} (db : Db) (k : Settled X * Db) : Settled X * Db :=
  match fault db with
  | Some (Unreachable e) => (Rejected e, db)
  | Some (ReplyLost e) => (Rejected e, k.2)
  | None => k
  end.

Definition setFields (sets : list (string * Bson)) (m : gmap string Bson)
    : gmap string Bson :=
  foldr (λ kv acc, <[kv.1 := kv.2]> acc) m sets.

Section Model.
Context {rt : Runtime}.

(** The condition one query parameter puts on a document. *)
Definition pathMatches (k v : string) (d : Document) : bool :=
  if bool_decide (k = "_id") then
    bool_decide (ObjectId.fromString v = Some (_id d))
  else
    match schema_path k with
    | Some st =>
        match cast (st_type st) (JString v) with
        | Casted b => bsonMatches b (fields d !! k)
        | _ => false
        end
    | None => false
    end.

(** The [CastError] one query parameter raises, if any. *)
Definition filterError (k v : string) : option Error :=
  if bool_decide (k = "_id") then
    match ObjectId.fromString v with
    | Some _ => None
    | None => Some (QueryCastError "ObjectId" (JString v) "_id")
    end
  else
    match schema_path k with
    | Some st =>
        match cast (st_type st) (JString v) with
        | CastFailed =>
            Some (QueryCastError (kind (st_type st)) (JString v) k)
        | _ => None
        end
    | None => None
    end.

Definition matchesAll (filter : gmap string string) (d : Document) : bool :=
  forallb (λ kv, pathMatches kv.1 kv.2 d) (map_to_list filter).

(** A condition of the form [field: "text"]. *)
Definition plain (v : JsValue) : option string :=
  match v with
  | JString s => Some s
  | _ => None
  end.

(** The conditions of a filter, when all of them are plain ones. *)
Definition conditions (filter : gmap string JsValue)
    : option (gmap string string) :=
  if forallb (λ kv, bool_decide (is_Some (plain kv.2))) (map_to_list filter)
  then Some (omap plain filter) else None.

(** [Product.find(filter)] *)
Definition Product_find (filter : gmap string JsValue) (db : Db)
    : option (Settled (list Document) * Db) :=
  match conditions filter with
  | None => None
  | Some q =>
      if existsb (λ kv, is_operator kv.1) (map_to_list q) then None
      else
        match omap (λ kv, filterError kv.1 kv.2) (map_to_list q) with
        | e :: _ => Some (Rejected e, db)
        | [] =>
            Some (roundTrip db
                    (Fulfilled (List.filter (matchesAll q) (docs db)), db))
        end
  end.

(** The cast of the [id] argument of the [...ById] calls. *)
Definition castId (id : string) : Error + N :=
  match ObjectId.fromString id with
  | Some n => inr n
  | None => inl (QueryCastError "ObjectId" (JString id) "_id")
  end.

(** [Product.findById(id)] *)
Definition Product_findById (id : option string) (db : Db)
    : option (Settled (option Document) * Db) :=
  match id with
  | None => None
  | Some s =>
      match castId s with
      | inl e => Some (Rejected e, db)
      | inr n => Some (roundTrip db (Fulfilled (findDoc n (docs db)), db))
      end
  end.

(** [Product.create(obj)]: cast, default, validate, then insert under a
    fresh ObjectId with version 0. *)
Definition Product_create (obj : JsValue) (db : Db)
    : option (Settled Document * Db) :=
  let paths := hydrate obj in
  match errorsOf paths with
  | (_ :: _) as errors =>
      Some (Rejected
              (ValidationError (modelName +:+ " validation failed") errors),
            db)
  | [] =>
      let doc :=
        {| _id := next_id db;
           fields := <[versionKey := BNumber (Finite 0)]>
                       (list_to_map (castedOf paths)) |} in
      Some (roundTrip db
              (Fulfilled doc,
               {| docs := docs db ++ [doc]; next_id := next_id db + 1;
                  fault := fault db |}))
  end.

(** The field map an update document stands for, when it is a plain one. *)
Definition updateFields (u : JsValue) : option (gmap string JsValue) :=
  match u with
  | JUndefined | JNull => Some ∅
  | JObject o =>
      if existsb (λ kv, is_operator kv.1 || bool_decide (kv.1 = "_id"))
           (map_to_list o)
      then None else Some o
  | _ => None
  end.

(** [castUpdate]: the schema's paths the update sets, each with its cast;
    other keys are dropped (strict mode). *)
Definition castUpdate (o : gmap string JsValue)
    : list (string * SchemaType * JsValue * Cast) :=
  omap (λ p, match default JUndefined (o !! p.1) with
             | JUndefined => None
             | v => Some (p.1, p.2, v, cast (st_type p.2) v)
             end) schema_paths.

Definition castErrorsOf (l : list (string * SchemaType * JsValue * Cast))
    : list (string * Error) :=
  omap (λ '(path, st, v, c),
          match c with
          | CastFailed => Some (path, CastError (st_type st) v path)
          | _ => None
          end) l.

(** [Product.findByIdAndUpdate(id, update, options)]: the update is cast
    and, with [runValidators], validated, key by key in the order of the
    payload, before anything is sent to the server. *)
Definition Product_findByIdAndUpdate (id : option string) (update : JsValue)
    (options : QueryOptions) (db : Db)
    : option (Settled (option Document) * Db) :=
  match id, updateFields update with
  | Some s, Some o =>
      match castId s with
      | inl e => Some (Rejected e, db)
      | inr n =>
          let sets := castUpdate o in
          match castErrorsOf sets with
          | (e :: _) as errors =>
              Some (Rejected (hd e (inKeyOrder (ObjectKeys o) errors)).2, db)
          | [] =>
              match (if runValidators options then errorsOf sets else []) with
              | (_ :: _) as errors =>
                  Some (Rejected
                          (ValidationError "Validation failed"
                             (inKeyOrder (ObjectKeys o) errors)),
                        db)
              | [] =>
                  Some (roundTrip db
                    match findDoc n (docs db) with
                    | None => (Fulfilled None, db)
                    | Some d =>
                        let d' :=
                          {| _id := _id d;
                             fields := setFields (castedOf sets) (fields d) |} in
                        (Fulfilled (Some (if new options then d' else d)),
                         {| docs := replaceDoc n d' (docs db);
                            next_id := next_id db; fault := fault db |})
                    end)
              end
          end
      end
  | _, _ => None
  end.

(** [Product.findByIdAndDelete(id)] *)
Definition Product_findByIdAndDelete (id : option string) (db : Db)
    : option (Settled (option Document) * Db) :=
  match id with
  | None => None
  | Some s =>
      match castId s with
      | inl e => Some (Rejected e, db)
      | inr n =>
          Some (roundTrip db
                  (Fulfilled (findDoc n (docs db)),
                   {| docs := removeDoc n (docs db); next_id := next_id db;
                      fault := fault db |}))
      end
  end.

End Model.

(** ** The controller *)

(** The part of an Express request the handlers read. A parameter of
    [query] is a string, or an array or an object (a repeated or a bracketed
    parameter). *)
Record Request := {
  body : JsValue;
  params : gmap string string;
  query : gmap string JsValue
}.

(** [res.status(code).json(payload)] *)
Record Response := { status : N; payload : JsValue }.

(** The calls the handlers make on the [Product] model, indexed by what
    the promise resolves to. *)
Inductive ProductCall : Type -> Type :=
| Find (filter : gmap string JsValue) : ProductCall (list Document)
| FindById (id : option string) : ProductCall (option Document)
| Create (obj : JsValue) : ProductCall Document
| FindByIdAndUpdate (id : option string) (update : JsValue)
    (options : QueryOptions) : ProductCall (option Document)
| FindByIdAndDelete (id : option string) : ProductCall (option Document).

(** A handler: it responds, or awaits a call on the model and goes on with
    the settled promise. *)
Inductive Handler :=
| Respond (r : Response)
| Await {X : Type} (call : ProductCall X) (k : Settled X -> Handler).

Definition json (code : N) (v : JsValue) : Handler :=
  Respond {| status := code; payload := v |}.

(** The [catch (err)] block every handler ends with. *)
Definition serverError (err : Error) : Handler :=
  json 500 (object [("message", JString "Server error");
                    ("error", JString (String_ err))]).

(** [await call] inside the handler's [try]: a rejection goes to the
    [catch] block. *)
Definition try_await {X} (call : ProductCall X) (k : X -> Handler) : Handler :=
  Await call (λ s, match s with
                   | Fulfilled x => k x
                   | Rejected err => serverError err
                   end).

Definition message (m : string) : JsValue := object [("message", JString m)].

Definition getProducts (req : Request) : Handler :=
  let filter := query req in
  try_await (Find filter) (λ products,
    (* an array is never falsy: [!products] cannot hold *)
    if bool_decide (length products = 0%nat) then
      json 404 (message "No products found")
    else json 200 (JArray (toJSON <$> products))).

Definition getProductById (req : Request) : Handler :=
  let id := params req !! "id" in
  if negb (isValidObjectId id) then json 400 (message "Invalid product ID")
  else
    try_await (FindById id) (λ product,
      match product with
      | None => json 404 (message "Product not found")
      | Some p => json 200 (toJSON p)
      end).

Definition createProduct (req : Request) : Handler :=
  if negb (truthy (body req)) then
    json 400 (message "Product data is required")
  else
    let name := get (body req) "name" in
    let brand := get (body req) "brand" in
    let category := get (body req) "category" in
    let price := get (body req) "price" in
    let inStock := get (body req) "inStock" in
    if negb (truthy name) || negb (truthy brand) || negb (truthy category)
       || is_undefined price then
      json 400 (message "Name, brand, category, and price are required")
    else
      try_await
        (Create (object [("name", name); ("brand", brand);
                         ("category", category); ("price", price);
                         ("inStock", inStock)]))
        (λ created,
           json 201 (object [("message", JString "Product created successfully");
                             ("product", toJSON created)])).

(** [!id] for a route parameter. *)
Definition id_missing (id : option string) : bool :=
  match id with
  | None => true
  | Some s => string_is_empty s
  end.

Definition updateProduct (req : Request) : Handler :=
  let id := params req !! "id" in
  if id_missing id then json 400 (message "Id Parameter Missing")
  else if negb (isValidObjectId id) then
    json 400 (message "Invalid product ID")
  else
    try_await
      (FindByIdAndUpdate id (body req) {| runValidators := true; new := true |})
      (λ updatedProduct,
         match updatedProduct with
         | None => json 404 (message "Product not found")
         | Some p =>
             json 200 (object [("message", JString "Product updated successfully");
                               ("product", toJSON p)])
         end).

Definition deleteProduct (req : Request) : Handler :=
  let id := params req !! "id" in
  if id_missing id then json 400 (message "Id Parameter Missing")
  else if negb (isValidObjectId id) then
    json 400 (message "Invalid product ID")
  else
    try_await (FindByIdAndDelete id) (λ deleted,
      match deleted with
      | None => json 404 (message "Product not found")
      | Some _ => json 200 (message "Product deleted successfully")
      end).

(** The five operations of the resource. *)
Inductive Operation := List_ | GetByOne | Create_ | Update | Delete.

Definition handler (op : Operation) : Request -> Handler :=
  match op with
  | List_ => getProducts
  | GetByOne => getProductById
  | Create_ => createProduct
  | Update => updateProduct
  | Delete => deleteProduct
  end.

(** ** Running a handler against the collection *)

Section Run.
Context {rt : Runtime}.

Definition perform {X} (call : ProductCall X) (db : Db)
    : option (Settled X * Db) :=
  match call with
  | Find filter => Product_find filter db
  | FindById id => Product_findById id db
  | Create obj => Product_create obj db
  | FindByIdAndUpdate id update options =>
      Product_findByIdAndUpdate id update options db
  | FindByIdAndDelete id => Product_findByIdAndDelete id db
  end.

Fixpoint run (h : Handler) (db : Db) : option (Response * Db) :=
  match h with
  | Respond r => Some (r, db)
  | Await call k =>
      match perform call db with
      | Some (s, db') => run (k s) db'
      | None => None
      end
  end.

End Run.

(** [r] is a response of [h] for some outcome of the calls it awaits. *)
Fixpoint responds (h : Handler) (r : Response) : Prop :=
  match h with
  | Respond r' => r' = r
  | Await call k => ∃ s, responds (k s) r
  end.

(** ** Predicates the statements below use *)

(** [!v] holds: [v] is absent ([undefined], [null]) or empty -- the empty
    string, and the other falsy primitives [0], [NaN] and [false]. *)
Definition falsy (v : JsValue) : Prop := truthy v = false.

(** The payload is a JSON object with a string under [message]. *)
Definition hasMessage (v : JsValue) : bool :=
  match v with
  | JObject o =>
      match o !! "message" with
      | Some (JString _) => true
      | _ => false
      end
  | _ => false
  end.

Definition ids (db : Db) : list N := _id <$> docs db.

(** The collection's invariant: [_id] is a key, and the ObjectIds handed out
    so far lie below the next one. *)
Definition wf (db : Db) : Prop :=
  NoDup (ids db) ∧ Forall (λ n, n < next_id db) (ids db).

(** The object [createProduct] hands to [Product.create]. *)
Definition createArg (b : JsValue) : JsValue :=
  object [("name", get b "name"); ("brand", get b "brand");
          ("category", get b "category"); ("price", get b "price");
          ("inStock", get b "inStock")].

(** A payload that passes the checks [createProduct] makes itself. *)
Definition passesHandler (b : JsValue) : Prop :=
  truthy b = true ∧ truthy (get b "name") = true
  ∧ truthy (get b "brand") = true ∧ truthy (get b "category") = true
  ∧ get b "price" ≠ JUndefined.

(** A payload of the data model: non-empty texts, a price that is a number
    not below zero, and [inStock] a boolean when it is there. *)
Record validPayload (b : JsValue) (name brand category : string)
    (price : number) : Prop := {
  valid_name : get b "name" = JString name ∧ name ≠ EmptyString;
  valid_brand : get b "brand" = JString brand ∧ brand ≠ EmptyString;
  valid_category :
    get b "category" = JString category ∧ category ≠ EmptyString;
  valid_price : get b "price" = JNumber price ∧ num_ge price (Finite 0) = true;
  valid_inStock :
    get b "inStock" = JUndefined ∨ ∃ s, get b "inStock" = JBool s
}.

(** [inStock] as stored for a valid payload: the schema's default when the
    payload has none. *)
Definition inStockOf (b : JsValue) : bool :=
  match get b "inStock" with
  | JBool s => s
  | _ => true
  end.

(** A price that is given but is no number for the schema: [null], the
    empty string, or a value [castNumber] refuses. *)
Definition priceNotNumeric {rt : Runtime} (v : JsValue) : Prop :=
  v ≠ JUndefined ∧ ∀ n, castNumber v ≠ Casted (BNumber n).

(** An update document the model interprets and whose casts and validators
    all pass. *)
Definition updateAccepted {rt : Runtime} (u : JsValue) : Prop :=
  ∃ o, updateFields u = Some o
       ∧ castErrorsOf (castUpdate o) = []
       ∧ errorsOf (castUpdate o) = [].

(** A query the model interprets and whose conditions all cast. *)
Definition filterAccepted {rt : Runtime} (q : gmap string string) : Prop :=
  map_Forall (λ k v, is_operator k = false ∧ filterError k v = None) q.





(** What a document holds under a path, as the validators see it. *)
Definition stored (d : Document) (path : string) : Cast :=
  match fields d !! path with
  | Some b => Casted b
  | None => Unset
  end.

(** The document passes every validator of [productSchema]. *)
Definition conforms (d : Document) : Prop :=
  ∀ path st, (path, st) ∈ productSchema -> doValidate st (stored d path) = None.

(** The call runs the schema's validators on what it writes. *)
Definition validating {X} (call : ProductCall X) : Prop :=
  match call with
  | FindByIdAndUpdate _ _ options => runValidators options = true
  | _ => True
  end.

(** Every call the handler may make is a validating one. *)
Fixpoint allValidating (h : Handler) : Prop :=
  match h with
  | Respond _ => True
  | Await call k => validating call ∧ ∀ s, allValidating (k s)
  end.


(** ** Worked examples: a runtime, a collection, requests *)

(** A runtime for the examples: it reads and writes unsigned decimal
    integers, and nothing else. *)
Definition exampleRuntime : Runtime :=
  {| StringToNumber := λ s,
       match NilEmpty.uint_of_string s with
       | Some u => Finite (inject_Z (Z.of_N (N.of_uint u)))
       | None => NaN
       end;
     NumberToString := λ n,
       match n with
       | Finite q => NilEmpty.string_of_int (Z.to_int (Qnum q))
       | PosInf => "Infinity"
       | NegInf => "-Infinity"
       | NaN => "NaN"
       end;
     inspect := λ v,
       match v with
       | JString s => "'" +:+ s +:+ "'"
       | v => valueType v
       end;
     ObjectKeys := λ o, (map_to_list o).*1 |}.

Definition request (b : JsValue) (id : option string)
    (q : list (string * string)) : Request :=
  {| body := b;
     params := match id with Some s => {["id" := s]} | None => ∅ end;
     query := JString <$> list_to_map q |}.

Definition emptyDb : Db := {| docs := []; next_id := 0; fault := None |}.

(** The first scenario's payload. *)
Definition pen : JsValue :=
  object [("name", JString "Pen"); ("brand", JString "Acme");
          ("category", JString "Stationery");
          ("price", JNumber (Finite (3 # 2)))].

Definition penDoc : Document :=
  {| _id := 0;
     fields := list_to_map
       [("name", BString "Pen"); ("brand", BString "Acme");
        ("category", BString "Stationery");
        ("price", BNumber (Finite (3 # 2))); ("inStock", BBool true);
        (versionKey, BNumber (Finite 0))] |}.

(** The collection after the first scenario. *)
Definition shop : Db := {| docs := [penDoc]; next_id := 1; fault := None |}.

Definition penId : string := "000000000000000000000000".

(** The pen after the fourth scenario's update of its price. *)
Definition repricedPen : Document :=
  {| _id := 0; fields := <["price" := BNumber (Finite 2)]> (fields penDoc) |}.

(** A second product, and the collection that holds both. *)
Definition inkDoc : Document :=
  {| _id := 1;
     fields := list_to_map
       [("name", BString "Ink"); ("brand", BString "Acme");
        ("category", BString "Stationery");
        ("price", BNumber (Finite 4)); ("inStock", BBool false);
        (versionKey, BNumber (Finite 0))] |}.

Definition inkId : string := "000000000000000000000001".

Definition stock : Db :=
  {| docs := [penDoc; inkDoc]; next_id := 2; fault := None |}.

(** A payload whose name is there and is a number: 0. *)
Definition numbered : JsValue :=
  object [("name", JNumber (Finite 0)); ("brand", JString "Acme");
          ("category", JString "Stationery");
          ("price", JNumber (Finite (3 # 2)))].

(** The pen at a price beyond the doubles, which [JSON.parse] reads as
    [Infinity]. *)
Definition pricelessPen : JsValue :=
  object [("name", JString "Pen"); ("brand", JString "Acme");
          ("category", JString "Stationery"); ("price", JNumber PosInf)].

Definition pricelessDoc : Document :=
  {| _id := 0;
     fields := list_to_map
       [("name", BString "Pen"); ("brand", BString "Acme");
        ("category", BString "Stationery");
        ("price", BNumber PosInf); ("inStock", BBool true);
        (versionKey, BNumber (Finite 0))] |}.

(** The pen at a price that is an object with an [_id]. *)
Definition wrappedPricePen : JsValue :=
  object [("name", JString "Pen"); ("brand", JString "Acme");
          ("category", JString "Stationery");
          ("price", object [("_id", JNumber (Finite 5))])].

(** The pen's payload with a key the schema does not know. *)
Definition redPen : JsValue :=
  object [("name", JString "Pen"); ("brand", JString "Acme");
          ("category", JString "Stationery");
          ("price", JNumber (Finite (3 # 2))); ("color", JString "red")].

(** ** What the routes document and what the schema knows *)

(** The status codes the swagger block above each handler lists under
    [responses]. *)
Definition documented (op : Operation) : list N :=
  match op with
  | List_ => [200; 404; 500]
  | GetByOne => [200; 400; 404; 500]
  | Create_ => [201; 400; 500]
  | Update => [200; 400; 404; 500]
  | Delete => [200; 400; 404; 500]
  end.

(** The server carries out what it is asked, and its replies are lost. *)
Definition replyLost (db : Db) : bool :=
  match fault db with
  | Some (ReplyLost _) => true
  | _ => false
  end.

(** What the driver raises when no reply comes. *)
Definition timedOut : Error :=
  {| err_name := "MongoNetworkTimeoutError";
     err_message := "connection timed out"; err_toString := None |}.

(** The document holds nothing but paths of the schema. *)
Definition onlySchemaPaths (d : Document) : Prop :=
  ∀ k, is_Some (fields d !! k) -> is_Some (schema_path k).

(** The route parameter of the request does not name the ObjectId [m]. *)
Definition addressesOther (req : Request) (m : N) : Prop :=
  ∀ s, params req !! "id" = Some s -> ObjectId.fromString s ≠ Some m.


(** * Properties *)

(** ** ObjectIds and their hexadecimal form *)

Lemma hex_value_digit (d : N) :
  d < 16 -> ObjectId.hex_value (ObjectId.hex_digit d) = Some d.
Proof.
  intros Hd. destruct d as [|p]; [reflexivity|].
  do 4 (destruct p as [p|p|]; try reflexivity); lia.
Qed.

Lemma to_hex_length (k : nat) (n : N) (rest : string) :
  String.length (ObjectId.to_hex k n rest) = (k + String.length rest)%nat.
Proof.
  revert n rest. induction k as [|k IH]; intros n rest; simpl; [done|].
  rewrite IH. simpl. lia.
Qed.

Lemma of_hex_to_hex (k : nat) (n : N) (rest : string) (acc : N) :
  ObjectId.of_hex (ObjectId.to_hex k n rest) acc
  = ObjectId.of_hex rest (16 ^ N.of_nat k * acc + n mod 16 ^ N.of_nat k).
Proof.
  revert n rest acc. induction k as [|k IH]; intros n rest acc.
  - simpl. rewrite N.mod_1_r. f_equal. lia.
  - cbn [ObjectId.to_hex]. rewrite IH. cbn [ObjectId.of_hex].
    rewrite hex_value_digit by (apply N.mod_lt; lia).
    f_equal. rewrite Nat2N.inj_succ, N.pow_succ_r'.
    rewrite (N.Div0.mod_mul_r n 16 (16 ^ N.of_nat k)). lia.
Qed.

(** Reading back the hexadecimal form of an ObjectId gives the ObjectId. *)
Lemma fromString_toHexString (n : N) :
  n < ObjectId.space ->
  ObjectId.fromString (ObjectId.toHexString n) = Some n.
Proof.
  intros Hn. unfold ObjectId.fromString, ObjectId.toHexString.
  rewrite to_hex_length. simpl Nat.eqb. cbv iota.
  rewrite of_hex_to_hex. cbn [ObjectId.of_hex]. f_equal.
  rewrite N.mul_0_r, N.add_0_l. apply N.mod_small.
  unfold ObjectId.space in Hn. exact Hn.
Qed.

Lemma toHexString_inj (n m : N) :
  n < ObjectId.space -> m < ObjectId.space ->
  ObjectId.toHexString n = ObjectId.toHexString m -> n = m.
Proof.
  intros Hn Hm H. apply (f_equal ObjectId.fromString) in H.
  rewrite !fromString_toHexString in H by done. by injection H.
Qed.

Lemma toHexString_nonempty (n : N) : ObjectId.toHexString n ≠ EmptyString.
Proof.
  intros H. apply (f_equal String.length) in H.
  unfold ObjectId.toHexString in H. rewrite to_hex_length in H. discriminate.
Qed.

Lemma isValidObjectId_spec (s : string) :
  isValidObjectId (Some s) = true <-> ∃ n, ObjectId.fromString s = Some n.
Proof.
  unfold isValidObjectId. rewrite bool_decide_eq_true. reflexivity.
Qed.

Lemma fromString_empty : ObjectId.fromString EmptyString = None.
Proof. reflexivity. Qed.

(** ** What a response shows of a document *)

Lemma lookup_withDefaults (m : gmap string Bson) (k : string) :
  withDefaults m !! k
  = match m !! k with
    | Some b => Some b
    | None => defaults !! k
    end.
Proof.
  unfold withDefaults. rewrite lookup_union.
  by destruct (m !! k), (defaults !! k).
Qed.

Lemma get_toJSON_id (d : Document) :
  get (toJSON d) "_id" = JString (ObjectId.toHexString (_id d)).
Proof. unfold toJSON, get. by rewrite lookup_insert_eq. Qed.

(** A field of the response is the stored value, or the schema's default
    where the document has none, as JSON writes it. *)
Lemma get_toJSON (d : Document) (k : string) :
  k ≠ "_id" ->
  get (toJSON d) k
  = match fields d !! k with
    | Some b => json_of_bson b
    | None => from_option json_of_bson JUndefined (defaults !! k)
    end.
Proof.
  intros Hk. unfold toJSON, get.
  rewrite lookup_insert_ne by done.
  rewrite lookup_fmap, lookup_withDefaults.
  destruct (fields d !! k); [done|]. by destruct (defaults !! k).
Qed.

(** ** The handlers' own checks *)

Lemma falsy_cases (v : JsValue) :
  falsy v <->
  v = JUndefined ∨ v = JNull ∨ v = JString EmptyString ∨ v = JBool false
  ∨ ∃ n, v = JNumber n ∧ (is_zero n = true ∨ is_NaN n = true).
Proof.
  unfold falsy. split.
  - destruct v as [| |[]|n|[]| |]; simpl; intros H; try discriminate; eauto 6.
    right; right; right; right. exists n. split; [done|].
    apply negb_false_iff, orb_true_iff in H. exact H.
  - intros [->|[->|[->|[->|(n & -> & H)]]]]; simpl; try done.
    apply negb_false_iff, orb_true_iff. exact H.
Qed.

Lemma createProduct_passes (req : Request) :
  passesHandler (body req) ->
  createProduct req
  = try_await (Create (createArg (body req)))
      (λ created,
         json 201 (object [("message", JString "Product created successfully");
                           ("product", toJSON created)])).
Proof.
  intros (Hb & Hn & Hr & Hc & Hp). unfold createProduct.
  rewrite Hb, Hn, Hr, Hc. simpl.
  assert (is_undefined (get (body req) "price") = false) as ->
    by (destruct (get (body req) "price"); done).
  reflexivity.
Qed.

(** C1, as the code has it. [createProduct] answers 400 without a call on
    the model exactly when the payload is falsy, or [name], [brand] or
    [category] is falsy -- [undefined], [null], the empty string, and also
    the values [0], [NaN] and [false], which are there and are not empty --
    or [price] is [undefined]; otherwise it goes on to [Product.create]. A
    price of 0 is no reason to refuse: with the three texts non-empty the
    payload reaches [Product.create]. *)
Theorem createProduct_bad_request (req : Request) :
  let b := body req in
  let rejected :=
    createProduct req = json 400 (message "Product data is required")
    ∨ createProduct req
      = json 400 (message "Name, brand, category, and price are required") in
  (rejected <->
     falsy b ∨ falsy (get b "name") ∨ falsy (get b "brand")
     ∨ falsy (get b "category") ∨ get b "price" = JUndefined)
  ∧ (rejected ∨ ∃ k, createProduct req = Await (Create (createArg b)) k)
  ∧ (∀ name brand category price,
       get b "name" = JString name -> name ≠ EmptyString ->
       get b "brand" = JString brand -> brand ≠ EmptyString ->
       get b "category" = JString category -> category ≠ EmptyString ->
       get b "price" = JNumber price -> is_zero price = true ->
       ∃ k, createProduct req = Await (Create (createArg b)) k).
Proof.
  cbv zeta. unfold falsy.
  assert (Hpass : passesHandler (body req) ->
                  ∃ k, createProduct req = Await (Create (createArg (body req))) k).
  { intros H. rewrite (createProduct_passes _ H). unfold try_await. eauto. }
  split; [|split].
  - split.
    + intros H.
      destruct (truthy (body req)) eqn:Hb; [|by left].
      destruct (truthy (get (body req) "name")) eqn:Hn; [|by right; left].
      destruct (truthy (get (body req) "brand")) eqn:Hr;
        [|by right; right; left].
      destruct (truthy (get (body req) "category")) eqn:Hc;
        [|by right; right; right; left].
      right; right; right; right.
      destruct (get (body req) "price") eqn:Hp; [done|..];
        (destruct Hpass as [k Hk]; [by unfold passesHandler; rewrite Hp|]);
        rewrite Hk in H; destruct H as [H|H]; discriminate H.
    + unfold createProduct.
      destruct (truthy (body req)); simpl; [|by left].
      intros [H|[->|[->|[->| ->]]]]; try discriminate H; simpl;
        rewrite ?orb_true_r; by right.
  - unfold createProduct.
    destruct (truthy (body req)) eqn:Hb; simpl; [|by left; left].
    destruct (truthy (get (body req) "name")) eqn:Hn; simpl;
      [|by left; right].
    destruct (truthy (get (body req) "brand")) eqn:Hr; simpl;
      [|by left; right].
    destruct (truthy (get (body req) "category")) eqn:Hc; simpl;
      [|by left; right].
    destruct (is_undefined (get (body req) "price")) eqn:Hp; simpl;
      [by left; right|].
    right. unfold try_await. eauto.
  - intros name brand category price Hn Hne Hr Hre Hc Hce Hp _.
    apply Hpass. unfold passesHandler. rewrite Hn, Hr, Hc, Hp.
    destruct (body req) as [| | | | | |o] eqn:Hb; try discriminate Hn.
    destruct name, brand, category; done.
Qed.

(** The zero-priced pen reaches [Product.create]. *)
Lemma createProduct_bad_request_witness :
  ∃ k, createProduct
         (request (object [("name", JString "Pen"); ("brand", JString "Acme");
                           ("category", JString "Stationery");
                           ("price", JNumber (Finite 0))]) None [])
       = Await (Create (createArg
           (object [("name", JString "Pen"); ("brand", JString "Acme");
                    ("category", JString "Stationery");
                    ("price", JNumber (Finite 0))]))) k.
Proof.
  apply (proj2 (proj2 (createProduct_bad_request
           (request (object [("name", JString "Pen"); ("brand", JString "Acme");
                             ("category", JString "Stationery");
                             ("price", JNumber (Finite 0))]) None [])))
         "Pen" "Acme" "Stationery" (Finite 0)); (reflexivity || discriminate).
Defined.

(** C1 as stated fails on a name that is there and is not empty, but is
    falsy: a payload whose name is the number 0 is answered with 400. *)
Lemma zero_name_bad_request :
  get numbered "name" = JNumber (Finite 0)
  ∧ get numbered "name" ≠ JUndefined
  ∧ get numbered "name" ≠ JNull
  ∧ get numbered "name" ≠ JString EmptyString
  ∧ truthy (get numbered "brand") = true
  ∧ truthy (get numbered "category") = true
  ∧ get numbered "price" ≠ JUndefined
  ∧ createProduct (request numbered None [])
    = json 400 (message "Name, brand, category, and price are required").
Proof. split_and!; (reflexivity || discriminate). Qed.

(** C3, as the code has it. An identifier that [isValidObjectId] refuses is
    answered with 400 by [getProductById], [updateProduct] and
    [deleteProduct], none of which then calls the model; the message is
    "Invalid product ID", except that [updateProduct] and [deleteProduct]
    answer the empty identifier with "Id Parameter Missing". *)
Theorem invalid_id_bad_request (req : Request) (id : string) :
  params req !! "id" = Some id ->
  isValidObjectId (Some id) = false ->
  let msg := if string_is_empty id then "Id Parameter Missing"
             else "Invalid product ID" in
  getProductById req = json 400 (message "Invalid product ID")
  ∧ updateProduct req = json 400 (message msg)
  ∧ deleteProduct req = json 400 (message msg).
Proof.
  intros Hid Hbad. cbv zeta.
  unfold getProductById, updateProduct, deleteProduct.
  rewrite Hid, Hbad. simpl. destruct (string_is_empty id); done.
Qed.

Lemma invalid_id_bad_request_witness :
  getProductById (request JUndefined (Some "not-an-id") [])
  = json 400 (message "Invalid product ID")
  ∧ updateProduct (request JUndefined (Some "not-an-id") [])
    = json 400 (message "Invalid product ID")
  ∧ deleteProduct (request JUndefined (Some "not-an-id") [])
    = json 400 (message "Invalid product ID").
Proof.
  apply (invalid_id_bad_request
           (request JUndefined (Some "not-an-id") []) "not-an-id");
    reflexivity.
Defined.

(** C3 as stated fails at the empty identifier: it is no valid ObjectId, and
    [updateProduct] and [deleteProduct] answer it with another message. *)
Lemma empty_id_other_message :
  isValidObjectId (Some EmptyString) = false
  ∧ updateProduct (request JUndefined (Some EmptyString) [])
    = json 400 (message "Id Parameter Missing")
  ∧ deleteProduct (request JUndefined (Some EmptyString) [])
    = json 400 (message "Id Parameter Missing")
  ∧ json 400 (message "Id Parameter Missing")
    ≠ json 400 (message "Invalid product ID").
Proof.
  repeat split; try reflexivity.
  intros H. apply (f_equal (λ h, match h with
                                 | Respond r => get (payload r) "message"
                                 | _ => JUndefined
                                 end)) in H.
  vm_compute in H. discriminate H.
Qed.

(** ** Creating a product *)

Section Creation.
Context {rt : Runtime}.

Lemma hydrate_createArg (b : JsValue) : hydrate (createArg b) = hydrate b.
Proof.
  unfold hydrate, productSchema. cbn [fmap list_fmap fst snd].
  change (get (createArg b) "name") with (get b "name").
  change (get (createArg b) "brand") with (get b "brand").
  change (get (createArg b) "category") with (get b "category").
  change (get (createArg b) "price") with (get b "price").
  change (get (createArg b) "inStock") with (get b "inStock").
  reflexivity.
Qed.

(** What becomes of a handler that awaits one call inside its [try]. *)
Lemma run_try_await {X} (call : ProductCall X) (k : X -> Handler) (db : Db) :
  run (try_await call k) db
  = match perform call db with
    | Some (Fulfilled x, db') => run (k x) db'
    | Some (Rejected err, db') =>
        Some ({| status := 500;
                 payload := object [("message", JString "Server error");
                                    ("error", JString (String_ err))] |}, db')
    | None => None
    end.
Proof.
  unfold try_await. cbn [run]. destruct (perform call db) as [[[x|e] db']|]; done.
Qed.

Lemma create_rejected (b : JsValue) (db : Db) :
  errorsOf (hydrate b) ≠ [] ->
  Product_create (createArg b) db
  = Some (Rejected (ValidationError (modelName +:+ " validation failed")
                      (errorsOf (hydrate b))), db).
Proof.
  intros H. unfold Product_create. rewrite hydrate_createArg.
  destruct (errorsOf (hydrate b)); done.
Qed.

(** The price path of the hydrated document. *)
Lemma hydrate_price (b : JsValue) :
  ∃ st, st_type st = SchemaNumber
        ∧ st_required st = Some "Price Required"
        ∧ st_min st = Some (Finite 0, "Price cannot be negative")
        ∧ ("price", st, get b "price", castNumber (get b "price")) ∈ hydrate b.
Proof.
  exists {| st_type := SchemaNumber; st_required := Some "Price Required";
            st_min := Some (Finite 0, "Price cannot be negative");
            st_default := None |}.
  split_and!; try reflexivity.
  unfold hydrate, productSchema. cbn [fmap list_fmap fst snd].
  rewrite !elem_of_cons. do 3 right. left.
  unfold applyDefault. simpl. by destruct (castNumber (get b "price")).
Qed.

Lemma errorsOf_elem l path st v c msg :
  (path, st, v, c) ∈ l -> pathError path st v c = Some msg ->
  (path, msg) ∈ errorsOf l.
Proof.
  intros Hin Herr. unfold errorsOf. apply elem_of_app.
  destruct c as [b| |]; [right|right|left];
    apply list_elem_of_omap; eexists (path, st, v, _);
    (split; [exact Hin|]); cbv beta iota; rewrite Herr; reflexivity.
Qed.

Lemma errorsOf_inv l path msg :
  (path, msg) ∈ errorsOf l ->
  ∃ st v c, (path, st, v, c) ∈ l ∧ pathError path st v c = Some msg.
Proof.
  unfold errorsOf. rewrite elem_of_app, !list_elem_of_omap.
  intros [([[[p st] v] c] & Hin & H)|([[[p st] v] c] & Hin & H)];
    destruct c; try discriminate H;
    destruct (pathError p st v _) eqn:E; try discriminate H;
    injection H as -> ->; eauto 6.
Qed.

(** A payload that passes the handler's checks and has an error on some
    path is refused by [Product.create], and answered with 500; nothing is
    stored. *)
Lemma createProduct_store_rejects (req : Request) (db : Db) path msg :
  passesHandler (body req) ->
  (path, msg) ∈ errorsOf (hydrate (body req)) ->
  ∃ err k,
    createProduct req = Await (Create (createArg (body req))) k
    ∧ perform (Create (createArg (body req))) db = Some (Rejected err, db)
    ∧ err_name err = "ValidationError"
    ∧ run (createProduct req) db
      = Some ({| status := 500;
                 payload := object [("message", JString "Server error");
                                    ("error", JString (String_ err))] |}, db).
Proof.
  intros Hpass Hin.
  assert (Hne : errorsOf (hydrate (body req)) ≠ [])
    by (intros E; rewrite E in Hin; by apply elem_of_nil in Hin).
  eexists _, _. rewrite (createProduct_passes _ Hpass).
  split; [reflexivity|]. rewrite run_try_await. cbn [perform].
  rewrite (create_rejected _ _ Hne). done.
Qed.

(** C4. A payload whose required fields are present and non-empty and
    whose price is a number below zero passes [createProduct]'s own checks,
    is refused by the schema's [min] validator in [Product.create], and the
    refusal comes back as 500 "Server error", not as 400; the collection is
    unchanged. *)
Theorem createProduct_negative_price (req : Request) (db : Db) (price : number) :
  truthy (body req) = true ->
  truthy (get (body req) "name") = true ->
  truthy (get (body req) "brand") = true ->
  truthy (get (body req) "category") = true ->
  get (body req) "price" = JNumber price ->
  num_lt price (Finite 0) = true ->
  ("price", "Price cannot be negative") ∈ errorsOf (hydrate (body req))
  ∧ ∃ err k,
      createProduct req = Await (Create (createArg (body req))) k
      ∧ perform (Create (createArg (body req))) db = Some (Rejected err, db)
      ∧ err_name err = "ValidationError"
      ∧ run (createProduct req) db
        = Some ({| status := 500;
                   payload := object [("message", JString "Server error");
                                      ("error", JString (String_ err))] |}, db).
Proof.
  intros Hb Hn Hr Hc Hp Hneg.
  assert (Hin : ("price", "Price cannot be negative")
                ∈ errorsOf (hydrate (body req))).
  { destruct (hydrate_price (body req)) as (st & Hty & Hreq & Hmin & Hin).
    eapply errorsOf_elem; [exact Hin|].
    rewrite Hp. unfold pathError, doValidate. simpl castNumber.
    destruct price as [q| | |]; try discriminate Hneg; simpl;
      rewrite Hreq, Hmin, Hty; simpl.
    - simpl in Hneg. apply negb_true_iff in Hneg. by rewrite Hneg.
    - done. }
  split; [exact Hin|].
  eapply createProduct_store_rejects; [|exact Hin].
  unfold passesHandler. rewrite Hp. done.
Qed.

(** The prices that are given and are no number for the schema, spelled
    out: [null], the empty string, a text that [Number] reads as [NaN], an
    array, or an object -- in the price itself or, when the price is an
    object with an [_id], in that [_id]. *)
Lemma priceNotNumeric_cases (v : JsValue) :
  priceNotNumeric v <->
  v ≠ JUndefined
  ∧ match unwrapId v with
    | JUndefined | JNull | JArray _ | JObject _ => True
    | JString s => s = EmptyString ∨ is_NaN (StringToNumber s) = true
    | JNumber n => is_NaN n = true
    | JBool _ => False
    end.
Proof.
  unfold priceNotNumeric, castNumber. split; intros [Hv H]; (split; [done|]).
  - destruct (unwrapId v) as [| |b|n|s|l|o]; simpl in *; try done.
    + by destruct (H (Finite (if b then 1 else 0))).
    + destruct (is_NaN n) eqn:E; [done|]. by destruct (H n).
    + destruct s as [|a s]; [by left|]. right. simpl in H.
      destruct (is_NaN _) eqn:E; [done|].
      by destruct (H (StringToNumber (String a s))).
  - intros n. destruct (unwrapId v) as [| |b|n'|s|l|o]; simpl in *; try done.
    + by rewrite H.
    + destruct H as [->|H]; [done|]. destruct s; [done|]. simpl.
      by rewrite H.
Qed.

(** C10. A payload whose required texts are there and whose price is given
    but is no number for the schema ([null], or a value the cast to Number
    refuses) passes [createProduct]'s own checks, which only look for
    [undefined]; [Product.create] is called, the price fails its [required]
    validator -- "Price Required", for [null] -- or its cast, and the
    failure comes back as 500, not as 400. *)
Theorem createProduct_price_not_numeric (req : Request) (db : Db) :
  truthy (body req) = true ->
  truthy (get (body req) "name") = true ->
  truthy (get (body req) "brand") = true ->
  truthy (get (body req) "category") = true ->
  priceNotNumeric (get (body req) "price") ->
  (∃ msg, ("price", msg) ∈ errorsOf (hydrate (body req)))
  ∧ (get (body req) "price" = JNull ->
     ("price", "Price Required") ∈ errorsOf (hydrate (body req)))
  ∧ ∃ err k,
      createProduct req = Await (Create (createArg (body req))) k
      ∧ perform (Create (createArg (body req))) db = Some (Rejected err, db)
      ∧ err_name err = "ValidationError"
      ∧ run (createProduct req) db
        = Some ({| status := 500;
                   payload := object [("message", JString "Server error");
                                      ("error", JString (String_ err))] |}, db).
Proof.
  intros Hb Hn Hr Hc [Hdef Hnum].
  destruct (hydrate_price (body req)) as (st & Hty & Hreq & Hmin & Hin).
  assert (∃ msg, pathError "price" st (get (body req) "price")
                   (castNumber (get (body req) "price")) = Some msg)
    as [msg Hmsg].
  { unfold pathError, doValidate. rewrite Hreq, Hmin, Hty.
    destruct (castNumber (get (body req) "price")) as [[ | | n| ]| |] eqn:E;
      simpl; eauto.
    by destruct (Hnum n). }
  assert (Hprice : ("price", msg) ∈ errorsOf (hydrate (body req)))
    by (eapply errorsOf_elem; [exact Hin|exact Hmsg]).
  split_and!.
  - by exists msg.
  - intros Hnull. eapply errorsOf_elem; [exact Hin|].
    rewrite Hnull. unfold pathError, doValidate. rewrite Hreq, Hmin, Hty.
    reflexivity.
  - eapply createProduct_store_rejects; [|exact Hprice].
    unfold passesHandler. done.
Qed.

End Creation.

Lemma createProduct_negative_price_witness :
  ∃ err k,
    createProduct
      (request (object [("name", JString "Pen"); ("brand", JString "Acme");
                        ("category", JString "Stationery");
                        ("price", JNumber (Finite (-1)))]) None [])
    = Await (Create (createArg
        (object [("name", JString "Pen"); ("brand", JString "Acme");
                 ("category", JString "Stationery");
                 ("price", JNumber (Finite (-1)))]))) k
    ∧ run (rt := exampleRuntime)
        (createProduct
           (request (object [("name", JString "Pen"); ("brand", JString "Acme");
                             ("category", JString "Stationery");
                             ("price", JNumber (Finite (-1)))]) None []))
        shop
      = Some ({| status := 500;
                 payload := object [("message", JString "Server error");
                                    ("error", JString (String_ err))] |}, shop).
Proof.
  destruct (createProduct_negative_price (rt := exampleRuntime)
    (request (object [("name", JString "Pen"); ("brand", JString "Acme");
                      ("category", JString "Stationery");
                      ("price", JNumber (Finite (-1)))]) None [])
    shop (Finite (-1)) eq_refl eq_refl eq_refl eq_refl eq_refl eq_refl)
    as (_ & err & k & Hk & _ & _ & Hrun).
  exists err, k. split; [exact Hk|exact Hrun].
Defined.

Lemma createProduct_price_not_numeric_witness :
  ("price", "Price Required")
  ∈ errorsOf (rt := exampleRuntime)
      (hydrate (rt := exampleRuntime)
         (object [("name", JString "Pen"); ("brand", JString "Acme");
                  ("category", JString "Stationery"); ("price", JNull)]))
  ∧ ∃ err k,
      createProduct
        (request (object [("name", JString "Pen"); ("brand", JString "Acme");
                          ("category", JString "Stationery");
                          ("price", JNull)]) None [])
      = Await (Create (createArg
          (object [("name", JString "Pen"); ("brand", JString "Acme");
                   ("category", JString "Stationery"); ("price", JNull)]))) k
      ∧ run (rt := exampleRuntime)
          (createProduct
             (request (object [("name", JString "Pen"); ("brand", JString "Acme");
                               ("category", JString "Stationery");
                               ("price", JNull)]) None []))
          emptyDb
        = Some ({| status := 500;
                   payload := object [("message", JString "Server error");
                                      ("error", JString (String_ err))] |},
                emptyDb).
Proof.
  destruct (createProduct_price_not_numeric (rt := exampleRuntime)
    (request (object [("name", JString "Pen"); ("brand", JString "Acme");
                      ("category", JString "Stationery");
                      ("price", JNull)]) None [])
    emptyDb eq_refl eq_refl eq_refl eq_refl)
    as (_ & Hreq & err & k & Hk & _ & _ & Hrun).
  - split; [discriminate|]. intros n. discriminate.
  - split; [exact (Hreq eq_refl)|].
    exists err, k. split; [exact Hk|exact Hrun].
Defined.

(** A price that is an object with a numeric [_id] is a number for the
    schema: the Number path takes the [_id], and the product is created at
    that price. *)
Lemma createProduct_price_by_id :
  castNumber (rt := exampleRuntime) (get wrappedPricePen "price")
  = Casted (BNumber (Finite 5))
  ∧ ∃ r db',
      run (rt := exampleRuntime)
        (createProduct (request wrappedPricePen None [])) emptyDb
      = Some (r, db')
      ∧ status r = 201
      ∧ get (get (payload r) "product") "price" = JNumber (Finite 5).
Proof.
  split; [reflexivity|]. eexists _, _. split; [reflexivity|].
  split; reflexivity.
Qed.

(** ** Looking documents up *)

Lemma findDoc_Some (n : N) (l : list Document) (d : Document) :
  findDoc n l = Some d -> d ∈ l ∧ _id d = n.
Proof.
  unfold findDoc. induction l as [|x l IH]; simpl; [done|].
  destruct (_id x =? n) eqn:E.
  - intros [= ->]. split; [apply elem_of_cons; by left|by apply N.eqb_eq].
  - intros H. destruct (IH H). split; [apply elem_of_cons; by right|done].
Qed.

Lemma findDoc_None (n : N) (l : list Document) :
  findDoc n l = None <-> n ∉ _id <$> l.
Proof.
  unfold findDoc. induction l as [|x l IH]; simpl.
  - split; [intros _; apply not_elem_of_nil|done].
  - rewrite not_elem_of_cons. destruct (_id x =? n) eqn:E.
    + apply N.eqb_eq in E. split; [done|]. intros [H _]. by destruct H.
    + apply N.eqb_neq in E. rewrite IH. split; [|tauto].
      intros H. split; [congruence|done].
Qed.

Lemma findDoc_snoc (n : N) (l : list Document) (d : Document) :
  n ∉ _id <$> l -> _id d = n -> findDoc n (l ++ [d]) = Some d.
Proof.
  intros Hout Hd. apply findDoc_None in Hout. unfold findDoc in *.
  induction l as [|x l IH]; simpl in *.
  - by rewrite Hd, N.eqb_refl.
  - destruct (_id x =? n); [done|]. by apply IH.
Qed.

Lemma fresh_id (db : Db) : wf db -> next_id db ∉ ids db.
Proof.
  intros [_ Hlt] Hin. rewrite Forall_forall in Hlt.
  specialize (Hlt _ Hin). lia.
Qed.

Section CreateThenGet.
Context {rt : Runtime}.

Lemma run_getProductById (req : Request) (id : string) (n : N) (db : Db) :
  params req !! "id" = Some id ->
  ObjectId.fromString id = Some n ->
  fault db = None ->
  run (getProductById req) db
  = Some (match findDoc n (docs db) with
          | Some d => {| status := 200; payload := toJSON d |}
          | None => {| status := 404; payload := message "Product not found" |}
          end, db).
Proof.
  intros Hid Hn Hf. unfold getProductById. rewrite Hid.
  assert (isValidObjectId (Some id) = true) as ->
    by (apply isValidObjectId_spec; eauto).
  cbn [negb]. rewrite run_try_await. cbn [perform].
  unfold Product_findById, castId, roundTrip. rewrite Hn, Hf.
  by destruct (findDoc n (docs db)).
Qed.

Lemma hydrate_valid (b : JsValue) name brand category price :
  validPayload b name brand category price ->
  errorsOf (hydrate b) = []
  ∧ castedOf (hydrate b)
    = [("name", BString name); ("brand", BString brand);
       ("category", BString category); ("price", BNumber price);
       ("inStock", BBool (inStockOf b))].
Proof.
  intros [[Hn Hne] [Hr Hre] [Hc Hce] [Hp Hpe] Hs].
  unfold hydrate, productSchema, inStockOf. cbn [fmap list_fmap fst snd].
  rewrite Hn, Hr, Hc, Hp.
  assert (is_NaN price = false) as Hnan by (by destruct price).
  destruct name; [done|]. destruct brand; [done|]. destruct category; [done|].
  cbn [cast st_type].
  change (castNumber (JNumber price))
    with (if is_NaN price then CastFailed else Casted (BNumber price)).
  rewrite Hnan.
  destruct Hs as [->|[s ->]]; unfold errorsOf, castedOf; simpl;
    unfold doValidate; simpl; rewrite Hpe; done.
Qed.

(** C2, as the code has it. A valid payload is answered with 201 and the
    stored product. In the response as in the collection, its name, brand
    and category are those of the payload; so is its price when that is
    finite, whereas a price that was read as [Infinity] is stored as such
    and comes back as [null]; [inStock] is [true] when the payload has
    none; its [_id] is a non-empty string that no stored product has.
    [getProductById] with that identifier then answers 200 with the same
    product. *)
Theorem createProduct_then_getProductById (req : Request) (db : Db)
    name brand category price :
  validPayload (body req) name brand category price ->
  wf db -> next_id db < ObjectId.space -> fault db = None ->
  ∃ doc db' id,
    run (createProduct req) db
    = Some ({| status := 201;
               payload := object
                 [("message", JString "Product created successfully");
                  ("product", toJSON doc)] |}, db')
    ∧ get (toJSON doc) "name" = JString name
    ∧ get (toJSON doc) "brand" = JString brand
    ∧ get (toJSON doc) "category" = JString category
    ∧ (∀ q, price = Finite q -> get (toJSON doc) "price" = JNumber price)
    ∧ (price = PosInf -> get (toJSON doc) "price" = JNull)
    ∧ get (toJSON doc) "inStock" = JBool (inStockOf (body req))
    ∧ (get (body req) "inStock" = JUndefined ->
       get (toJSON doc) "inStock" = JBool true)
    ∧ get (toJSON doc) "_id" = JString id
    ∧ id ≠ EmptyString
    ∧ (∀ d, d ∈ docs db -> get (toJSON d) "_id" ≠ JString id)
    ∧ fields doc !! "name" = Some (BString name)
    ∧ fields doc !! "brand" = Some (BString brand)
    ∧ fields doc !! "category" = Some (BString category)
    ∧ fields doc !! "price" = Some (BNumber price)
    ∧ fields doc !! "inStock" = Some (BBool (inStockOf (body req)))
    ∧ (_id doc ∉ ids db)
    ∧ docs db' = (docs db ++ [doc])%list
    ∧ (∀ req', params req' !! "id" = Some id ->
         run (getProductById req') db'
         = Some ({| status := 200; payload := toJSON doc |}, db')).
Proof.
  intros Hv Hwf Hspace Hfault.
  destruct (hydrate_valid _ _ _ _ _ Hv) as [Herr Hcast].
  assert (Hpass : passesHandler (body req)).
  { destruct Hv as [[Hn Hne] [Hr Hre] [Hc Hce] [Hp Hpe] Hs].
    unfold passesHandler. rewrite Hn, Hr, Hc, Hp.
    destruct (body req); try discriminate Hn.
    destruct name, brand, category; done. }
  rewrite (createProduct_passes _ Hpass), run_try_await. cbn [perform].
  unfold Product_create. rewrite hydrate_createArg, Herr, Hcast.
  unfold roundTrip. rewrite Hfault. cbn [run json].
  eexists _, _, (ObjectId.toHexString (next_id db)).
  split; [reflexivity|].
  assert (Hstock : get (body req) "inStock" = JUndefined ->
                   inStockOf (body req) = true)
    by (intros Hs; unfold inStockOf; by rewrite Hs).
  rewrite get_toJSON_id. cbn [fields _id docs].
  split_and!; try reflexivity.
  - intros q ->. reflexivity.
  - intros ->. reflexivity.
  - intros Hs. transitivity (JBool (inStockOf (body req))); [reflexivity|].
    by rewrite (Hstock Hs).
  - apply toHexString_nonempty.
  - intros d Hd. rewrite get_toJSON_id. intros Heq.
    apply (f_equal (λ v, match v with JString s => s | _ => EmptyString end))
      in Heq. cbv beta iota in Heq.
    destruct Hwf as [_ Hlt]. rewrite Forall_forall in Hlt.
    assert (Hlt' : _id d < next_id db).
    { apply Hlt. unfold ids. apply list_elem_of_fmap. by exists d. }
    apply toHexString_inj in Heq; [lia|lia|done].
  - by apply fresh_id.
  - intros req' Hid.
    erewrite run_getProductById;
      [|exact Hid|by apply fromString_toHexString|done].
    cbn [docs]. rewrite findDoc_snoc; [done| |done].
    by apply fresh_id.
Qed.

End CreateThenGet.

Lemma createProduct_then_getProductById_witness :
  ∃ doc db' id,
    run (rt := exampleRuntime) (createProduct (request pen None [])) emptyDb
    = Some ({| status := 201;
               payload := object
                 [("message", JString "Product created successfully");
                  ("product", toJSON doc)] |}, db')
    ∧ get (toJSON doc) "name" = JString "Pen"
    ∧ get (toJSON doc) "price" = JNumber (Finite (3 # 2))
    ∧ get (toJSON doc) "inStock" = JBool true
    ∧ get (toJSON doc) "_id" = JString id
    ∧ run (rt := exampleRuntime)
        (getProductById (request JUndefined (Some id) [])) db'
      = Some ({| status := 200; payload := toJSON doc |}, db').
Proof.
  destruct (createProduct_then_getProductById (rt := exampleRuntime)
              (request pen None []) emptyDb
              "Pen" "Acme" "Stationery" (Finite (3 # 2)))
    as (doc & db' & id & Hrun & Hname & _ & _ & Hprice & _ & _ & Hstock
        & Hid & _ & _ & _ & _ & _ & _ & _ & _ & _ & Hget).
  - split; try (split; [reflexivity|discriminate]).
    + split; reflexivity.
    + left. reflexivity.
  - split; [apply NoDup_nil_2|apply Forall_nil_2].
  - reflexivity.
  - reflexivity.
  - exists doc, db', id.
    split_and!; [exact Hrun|exact Hname|by eapply Hprice|by apply Hstock
                |exact Hid|].
    apply Hget. apply lookup_singleton_eq.
Defined.

(** C2 as stated fails at a price beyond the doubles, which the payload
    may write ([1e999]) and [JSON.parse] reads as [Infinity]: the payload is
    valid, the product is created and stored at that price, and the
    response shows its price as [null]. *)
Lemma infinite_price_returned_null :
  get pricelessPen "price" = JNumber PosInf
  ∧ num_ge PosInf (Finite 0) = true
  ∧ run (rt := exampleRuntime)
      (createProduct (request pricelessPen None [])) emptyDb
    = Some ({| status := 201;
               payload := object
                 [("message", JString "Product created successfully");
                  ("product", toJSON pricelessDoc)] |},
            {| docs := [pricelessDoc]; next_id := 1; fault := None |})
  ∧ fields pricelessDoc !! "price" = Some (BNumber PosInf)
  ∧ get (toJSON pricelessDoc) "price" = JNull
  ∧ get (toJSON pricelessDoc) "price" ≠ get pricelessPen "price".
Proof. split_and!; (reflexivity || discriminate). Qed.

(** ** Listing products *)


Lemma filter_all {A} (f : A -> bool) (l : list A) :
  (∀ x, f x = true) -> List.filter f l = l.
Proof.
  intros H. induction l as [|x l IH]; simpl; [done|]. by rewrite H, IH.
Qed.

Section Listing.
Context {rt : Runtime}.

Lemma matchesAll_spec (q : gmap string string) (d : Document) :
  matchesAll q d = true <-> map_Forall (λ k v, pathMatches k v d = true) q.
Proof.
  unfold matchesAll. rewrite forallb_forall, map_Forall_to_list, Forall_forall.
  split.
  - intros H [k v] Hin. apply (H (k, v)). by apply list_elem_of_In.
  - intros H [k v] Hin. apply (H (k, v)). by apply list_elem_of_In.
Qed.







(** A parameter the schema has no path for matches no document. *)
Lemma pathMatches_unknown (k v : string) (d : Document) :
  k ≠ "_id" -> schema_path k = None -> pathMatches k v d = false.
Proof.
  intros Hk Hs. unfold pathMatches.
  rewrite bool_decide_eq_false_2 by done. by rewrite Hs.
Qed.




(** The plain parameters of a query are its conditions. *)
Lemma conditions_plain (q : gmap string string) :
  conditions (JString <$> q) = Some q.
Proof.
  unfold conditions.
  assert (forallb (λ kv : string * JsValue, bool_decide (is_Some (plain kv.2)))
            (map_to_list (JString <$> q)) = true) as ->.
  { apply forallb_forall. intros [k v] Hin.
    apply list_elem_of_In, elem_of_map_to_list in Hin.
    rewrite lookup_fmap in Hin. apply bool_decide_eq_true.
    destruct (q !! k); simplify_eq/=. by eexists. }
  f_equal. apply map_eq. intros k.
  rewrite lookup_omap, lookup_fmap. by destruct (q !! k).
Qed.

Lemma Product_find_accepted (filter : gmap string JsValue)
    (q : gmap string string) (db : Db) :
  filter = JString <$> q -> filterAccepted q -> fault db = None ->
  Product_find filter db
  = Some (Fulfilled (List.filter (matchesAll q) (docs db)), db).
Proof.
  intros -> Hq Hf. unfold Product_find, roundTrip.
  rewrite conditions_plain, Hf.
  assert (existsb (λ kv, is_operator kv.1) (map_to_list q) = false) as ->.
  { apply not_true_is_false. intros H.
    apply existsb_exists in H as ([k v] & Hin & Hop).
    apply list_elem_of_In, elem_of_map_to_list in Hin.
    destruct (Hq _ _ Hin) as [Hno _]. simpl in Hop. congruence. }
  assert (omap (λ kv, filterError kv.1 kv.2) (map_to_list q) = []) as ->.
  { apply elem_of_nil_inv. intros e He.
    apply list_elem_of_omap in He as ([k v] & Hin & Herr).
    apply elem_of_map_to_list in Hin.
    destruct (Hq _ _ Hin) as [_ Hno]. simpl in Herr. congruence. }
  reflexivity.
Qed.



End Listing.



(** ** Updating a product *)

Lemma schema_paths_NoDup : NoDup schema_paths.*1.
Proof. apply (bool_decide_unpack _). by vm_compute. Qed.

Lemma schema_path_elem (k : string) (st : SchemaType) :
  schema_path k = Some st <-> (k, st) ∈ schema_paths.
Proof.
  unfold schema_path. symmetry. apply elem_of_list_to_map.
  apply schema_paths_NoDup.
Qed.

Lemma lookup_setFields_notin (sets : list (string * Bson)) m (k : string) :
  k ∉ sets.*1 -> setFields sets m !! k = m !! k.
Proof.
  induction sets as [|[k' b'] sets IH]; simpl; [done|].
  rewrite not_elem_of_cons. intros [Hne Hout].
  rewrite lookup_insert_ne by done. by apply IH.
Qed.

Lemma lookup_setFields_in (sets : list (string * Bson)) m (k : string) b :
  NoDup sets.*1 -> (k, b) ∈ sets -> setFields sets m !! k = Some b.
Proof.
  induction sets as [|[k' b'] sets IH]; simpl.
  - intros _ H. by apply elem_of_nil in H.
  - rewrite NoDup_cons, elem_of_cons. intros [Hout Hnd] [[= -> ->]|Hin].
    + apply lookup_insert_eq.
    + rewrite lookup_insert_ne; [by apply IH|].
      intros ->. apply Hout. apply list_elem_of_fmap. by exists (k, b).
Qed.

Lemma findDoc_replaceDoc (n : N) (d d' : Document) (l : list Document) :
  findDoc n l = Some d -> _id d' = n ->
  findDoc n (replaceDoc n d' l) = Some d'.
Proof.
  unfold findDoc. intros Hfind Hid.
  induction l as [|x l IH]; simpl in *; [done|].
  destruct (_id x =? n) eqn:E; simpl.
  - by rewrite Hid, N.eqb_refl.
  - rewrite E. by apply IH.
Qed.

Lemma findDoc_replaceDoc_ne (m n : N) (d' : Document) (l : list Document) :
  m ≠ n -> _id d' = n -> findDoc m (replaceDoc n d' l) = findDoc m l.
Proof.
  unfold findDoc. intros Hne Hid.
  induction l as [|x l IH]; simpl; [done|].
  destruct (_id x =? n) eqn:E; simpl.
  - apply N.eqb_eq in E.
    assert ((_id d' =? m) = false) as -> by (apply N.eqb_neq; congruence).
    assert ((_id x =? m) = false) as -> by (apply N.eqb_neq; congruence).
    done.
  - destruct (_id x =? m); [done|apply IH].
Qed.

Lemma updateFields_get (u : JsValue) (o : gmap string JsValue) (k : string) :
  updateFields u = Some o -> get u k = default JUndefined (o !! k).
Proof.
  destruct u; simpl; try discriminate.
  - by intros [= <-].
  - by intros [= <-].
  - destruct (existsb _ _); [discriminate|]. by intros [= <-].
Qed.

Section Updating.
Context {rt : Runtime}.

Lemma castUpdate_elem (o : gmap string JsValue) path st v c :
  (path, st, v, c) ∈ castUpdate o <->
  (path, st) ∈ schema_paths ∧ v = default JUndefined (o !! path)
  ∧ v ≠ JUndefined ∧ c = cast (st_type st) v.
Proof.
  unfold castUpdate. rewrite list_elem_of_omap. split.
  - intros ([p s] & Hin & H). simpl in H.
    destruct (default JUndefined (o !! p)) eqn:E; try discriminate H;
      injection H as <- <- <- <-; rewrite E; done.
  - intros (Hin & -> & Hv & ->). exists (path, st). split; [done|]. simpl.
    by destruct (default JUndefined (o !! path)).
Qed.

Lemma castedOf_elem (l : list (string * SchemaType * JsValue * Cast)) k b :
  (k, b) ∈ castedOf l <-> ∃ st v, (k, st, v, Casted b) ∈ l.
Proof.
  unfold castedOf. rewrite list_elem_of_omap. split.
  - intros ([[[p st] v] c] & Hin & H). destruct c; try discriminate H.
    injection H as <- <-. eauto.
  - intros (st & v & Hin). by exists (k, st, v, Casted b).
Qed.

Lemma castedOf_castUpdate_keys (o : gmap string JsValue) :
  NoDup (castedOf (castUpdate o)).*1.
Proof.
  eapply sublist_NoDup; [apply schema_paths_NoDup|].
  unfold castedOf, castUpdate. generalize schema_paths as ps.
  induction ps as [|[p st] ps IH]; simpl; [constructor|].
  destruct (default JUndefined (o !! p)); simpl;
    try (by constructor);
    (destruct (cast (st_type st) _); simpl; by constructor).
Qed.

Lemma updateProduct_valid_id (req : Request) (id : string) :
  params req !! "id" = Some id ->
  isValidObjectId (Some id) = true ->
  updateProduct req
  = try_await
      (FindByIdAndUpdate (Some id) (body req)
         {| runValidators := true; new := true |})
      (λ updatedProduct,
         match updatedProduct with
         | None => json 404 (message "Product not found")
         | Some p =>
             json 200 (object [("message", JString "Product updated successfully");
                               ("product", toJSON p)])
         end).
Proof.
  intros Hid Hv. unfold updateProduct. rewrite Hid, Hv. simpl.
  destruct id; [discriminate Hv|reflexivity].
Qed.

(** An update whose casts pass and one of whose validators fails is
    refused before the collection is touched. *)
Lemma update_validation_fails (id : string) (n : N) (u : JsValue) o (db : Db)
    path msg :
  ObjectId.fromString id = Some n ->
  updateFields u = Some o ->
  castErrorsOf (castUpdate o) = [] ->
  (path, msg) ∈ errorsOf (castUpdate o) ->
  Product_findByIdAndUpdate (Some id) u
    {| runValidators := true; new := true |} db
  = Some (Rejected (ValidationError "Validation failed"
                      (inKeyOrder (ObjectKeys o) (errorsOf (castUpdate o)))),
          db).
Proof.
  intros Hn Ho Hc Hin. unfold Product_findByIdAndUpdate, castId.
  rewrite Ho, Hn, Hc. cbn [runValidators].
  destruct (errorsOf (castUpdate o)); [by apply elem_of_nil in Hin|done].
Qed.

(** A price below zero in an update fails the [min] validator. *)
Lemma update_negative_price (o : gmap string JsValue) (price : number) :
  o !! "price" = Some (JNumber price) -> num_lt price (Finite 0) = true ->
  ("price", "Price cannot be negative") ∈ errorsOf (castUpdate o).
Proof.
  intros Hp Hneg.
  eapply (errorsOf_elem _ "price"
            {| st_type := SchemaNumber; st_required := Some "Price Required";
               st_min := Some (Finite 0, "Price cannot be negative");
               st_default := None |} (JNumber price)).
  - apply castUpdate_elem. rewrite Hp. split_and!; try done.
    unfold schema_paths, productSchema. cbn [app].
    rewrite !elem_of_cons. do 3 right. by left.
  - destruct price as [q| | |]; try discriminate Hneg; simpl; [|done].
    unfold doValidate. simpl. simpl in Hneg. apply negb_true_iff in Hneg.
    by rewrite Hneg.
Qed.

(** An empty name in an update fails the [required] validator. *)
Lemma update_empty_name (o : gmap string JsValue) :
  o !! "name" = Some (JString EmptyString) ->
  ("name", "Name Required") ∈ errorsOf (castUpdate o).
Proof.
  intros Hn.
  eapply (errorsOf_elem _ "name"
            {| st_type := SchemaString; st_required := Some "Name Required";
               st_min := None; st_default := None |} (JString EmptyString)).
  - apply castUpdate_elem. rewrite Hn. split_and!; try done.
    unfold schema_paths, productSchema. cbn [app].
    rewrite !elem_of_cons. by left.
  - reflexivity.
Qed.

Lemma update_accepted (id : string) (n : N) (u : JsValue) (db : Db) :
  ObjectId.fromString id = Some n ->
  updateAccepted u -> fault db = None ->
  ∃ o, updateFields u = Some o ∧
  Product_findByIdAndUpdate (Some id) u
    {| runValidators := true; new := true |} db
  = Some match findDoc n (docs db) with
         | None => (Fulfilled None, db)
         | Some d =>
             let d' := {| _id := _id d;
                          fields := setFields (castedOf (castUpdate o))
                                      (fields d) |} in
             (Fulfilled (Some d'),
              {| docs := replaceDoc n d' (docs db); next_id := next_id db;
                 fault := fault db |})
         end.
Proof.
  intros Hn (o & Ho & Hc & He) Hf. exists o. split; [done|].
  unfold Product_findByIdAndUpdate, castId, roundTrip.
  rewrite Ho, Hn, Hc. cbn [runValidators new]. rewrite He, Hf. done.
Qed.

(** C7, as the code has it. [updateProduct] looks at the identifier only.
    For a valid identifier it always awaits
    [Product.findByIdAndUpdate(id, req.body, {runValidators, new})],
    whatever the payload; whatever the call is rejected with -- a
    validator's failure such as a negative price or an empty required text
    included, whether or not the identifier names a product -- is answered
    with 500 "Server error", and a call that finds no product is answered
    with 404 "Product not found": that is the answer for an identifier that
    names no product when the payload passes the casts and the
    validators. *)
Theorem updateProduct_defers_validation (req : Request) (id : string) :
  params req !! "id" = Some id ->
  isValidObjectId (Some id) = true ->
  let call := FindByIdAndUpdate (Some id) (body req)
                {| runValidators := true; new := true |} in
  let serverError500 err :=
    {| status := 500;
       payload := object [("message", JString "Server error");
                          ("error", JString (String_ err))] |} in
  let notFound404 :=
    {| status := 404; payload := message "Product not found" |} in
  (∃ k, updateProduct req = Await call k
        ∧ (∀ err, k (Rejected err) = Respond (serverError500 err))
        ∧ k (Fulfilled None) = Respond notFound404)
  ∧ (∀ db db' err,
       perform call db = Some (Rejected err, db') ->
       run (updateProduct req) db = Some (serverError500 err, db'))
  ∧ (∀ db db',
       perform call db = Some (Fulfilled None, db') ->
       run (updateProduct req) db = Some (notFound404, db'))
  ∧ (∀ db o path msg,
       updateFields (body req) = Some o ->
       castErrorsOf (castUpdate o) = [] ->
       (path, msg) ∈ errorsOf (castUpdate o) ->
       ∃ err, err_name err = "ValidationError"
              ∧ run (updateProduct req) db = Some (serverError500 err, db))
  ∧ (∀ db, updateAccepted (body req) -> fault db = None ->
           (∀ n, ObjectId.fromString id = Some n -> n ∉ ids db) ->
           run (updateProduct req) db = Some (notFound404, db)).
Proof.
  intros Hid Hv. cbv zeta.
  apply isValidObjectId_spec in Hv as Hn. destruct Hn as [n Hn].
  split_and!.
  - rewrite (updateProduct_valid_id _ _ Hid Hv). unfold try_await.
    eexists. split; [reflexivity|]. split; [intros err|]; reflexivity.
  - intros db db' err Hp.
    rewrite (updateProduct_valid_id _ _ Hid Hv), run_try_await, Hp. done.
  - intros db db' Hp.
    rewrite (updateProduct_valid_id _ _ Hid Hv), run_try_await, Hp. done.
  - intros db o path msg Ho Hc Hin. eexists. split; last first.
    + rewrite (updateProduct_valid_id _ _ Hid Hv), run_try_await. cbn [perform].
      rewrite (update_validation_fails _ _ _ _ _ _ _ Hn Ho Hc Hin). done.
    + reflexivity.
  - intros db Hacc Hf Hout.
    rewrite (updateProduct_valid_id _ _ Hid Hv), run_try_await. cbn [perform].
    destruct (update_accepted _ _ _ db Hn Hacc Hf) as (o & _ & ->).
    assert (findDoc n (docs db) = None) as ->
      by (apply findDoc_None, Hout, Hn).
    done.
Qed.

(** C6. For a stored product and an update the model accepts,
    [updateProduct] answers 200 with the product as it is after the write:
    in the response as in the collection, the paths the payload sets hold
    the values it gives, every path it leaves out (or that the schema does
    not know) keeps its value, the [_id] is unchanged, and no other product
    is touched. *)
Theorem updateProduct_partial (req : Request) (id : string) (n : N)
    (db : Db) (d : Document) :
  params req !! "id" = Some id ->
  ObjectId.fromString id = Some n ->
  findDoc n (docs db) = Some d ->
  updateAccepted (body req) -> fault db = None ->
  ∃ d' db',
    run (updateProduct req) db
    = Some ({| status := 200;
               payload := object
                 [("message", JString "Product updated successfully");
                  ("product", toJSON d')] |}, db')
    ∧ _id d' = _id d
    ∧ get (toJSON d') "_id" = get (toJSON d) "_id"
    ∧ (∀ path, get (body req) path = JUndefined ∨ schema_path path = None ->
               fields d' !! path = fields d !! path
               ∧ get (toJSON d') path = get (toJSON d) path)
    ∧ (∀ path st b,
         schema_path path = Some st ->
         cast (st_type st) (get (body req) path) = Casted b ->
         fields d' !! path = Some b
         ∧ get (toJSON d') path = json_of_bson b)
    ∧ findDoc n (docs db') = Some d'
    ∧ (∀ m, m ≠ n -> findDoc m (docs db') = findDoc m (docs db))
    ∧ next_id db' = next_id db.
Proof.
  intros Hid Hn Hd Hacc Hf.
  assert (Hv : isValidObjectId (Some id) = true)
    by (apply isValidObjectId_spec; eauto).
  destruct (update_accepted _ _ _ db Hn Hacc Hf) as (o & Ho & Hup).
  rewrite (updateProduct_valid_id _ _ Hid Hv), run_try_await. cbn [perform].
  rewrite Hup, Hd. cbv zeta. cbn [run json].
  destruct (findDoc_Some _ _ _ Hd) as [_ Hidd].
  eexists _, _. split; [reflexivity|].
  assert (Hkeep : ∀ path,
            get (body req) path = JUndefined ∨ schema_path path = None ->
            setFields (castedOf (castUpdate o)) (fields d) !! path
            = fields d !! path).
  { intros path Hpath. apply lookup_setFields_notin.
    rewrite list_elem_of_fmap. intros ([k b] & -> & Hin). simpl in Hpath.
    apply castedOf_elem in Hin as (st & v & Hin).
    apply castUpdate_elem in Hin as (Hs & -> & Hv' & _).
    rewrite (updateFields_get _ _ k Ho) in Hpath.
    apply schema_path_elem in Hs. destruct Hpath; congruence. }
  assert (Hset : ∀ path st b,
            schema_path path = Some st ->
            cast (st_type st) (get (body req) path) = Casted b ->
            setFields (castedOf (castUpdate o)) (fields d) !! path = Some b).
  { intros path st b Hs Hc.
    apply lookup_setFields_in; [apply castedOf_castUpdate_keys|].
    apply castedOf_elem. exists st, (get (body req) path).
    apply castUpdate_elem. rewrite <- (updateFields_get _ _ path Ho).
    split_and!; try done.
    + by apply schema_path_elem.
    + intros E. rewrite E in Hc. by destruct (st_type st). }
  cbn [_id fields docs next_id].
  split_and!; try done.
  - by rewrite !get_toJSON_id.
  - intros path Hpath. split; [by apply Hkeep|].
    destruct (decide (path = "_id")) as [->|Hne]; [by rewrite !get_toJSON_id|].
    rewrite !get_toJSON by done. cbn [fields]. by rewrite Hkeep.
  - intros path st b Hs Hc. split; [by eapply Hset|].
    assert (Hne : path ≠ "_id") by (intros ->; discriminate Hs).
    rewrite get_toJSON by done. cbn [fields]. by erewrite Hset.
  - by apply (findDoc_replaceDoc _ d).
  - intros m Hm. by apply findDoc_replaceDoc_ne.
Qed.

End Updating.

Lemma updateProduct_defers_validation_witness :
  (∃ k, updateProduct
          (request (object [("price", JNumber (Finite (-2)))]) (Some penId) [])
        = Await (FindByIdAndUpdate (Some penId)
                   (object [("price", JNumber (Finite (-2)))])
                   {| runValidators := true; new := true |}) k)
  ∧ (∃ err,
       run (rt := exampleRuntime)
         (updateProduct
            (request (object [("price", JNumber (Finite (-2)))])
               (Some penId) [])) shop
       = Some ({| status := 500;
                  payload := object [("message", JString "Server error");
                                     ("error", JString (String_ err))] |},
               shop))
  ∧ run (rt := exampleRuntime)
      (updateProduct
         (request (object [("price", JNumber (Finite 2))]) (Some penId) []))
      emptyDb
    = Some ({| status := 404; payload := message "Product not found" |},
            emptyDb).
Proof.
  destruct (updateProduct_defers_validation (rt := exampleRuntime)
              (request (object [("price", JNumber (Finite (-2)))])
                 (Some penId) []) penId eq_refl eq_refl)
    as ((k & Hk & _) & _ & _ & Hval & _).
  destruct (updateProduct_defers_validation (rt := exampleRuntime)
              (request (object [("price", JNumber (Finite 2))])
                 (Some penId) []) penId eq_refl eq_refl)
    as (_ & _ & _ & _ & Hnone).
  split_and!; [by exists k| |].
  - destruct (Hval shop (<["price" := JNumber (Finite (-2))]> ∅)
                "price" "Price cannot be negative") as (err & _ & Hrun).
    + reflexivity.
    + reflexivity.
    + apply update_negative_price with (price := Finite (-2)); reflexivity.
    + by exists err.
  - apply Hnone.
    + exists (<["price" := JNumber (Finite 2)]> ∅). split_and!; reflexivity.
    + reflexivity.
    + intros n _. apply not_elem_of_nil.
Defined.

Lemma updateProduct_partial_witness :
  ∃ d' db',
    run (rt := exampleRuntime)
      (updateProduct
         (request (object [("price", JNumber (Finite 2))]) (Some penId) []))
      shop
    = Some ({| status := 200;
               payload := object
                 [("message", JString "Product updated successfully");
                  ("product", toJSON d')] |}, db')
    ∧ get (toJSON d') "price" = JNumber (Finite 2)
    ∧ get (toJSON d') "name" = JString "Pen"
    ∧ get (toJSON d') "inStock" = JBool true
    ∧ get (toJSON d') "_id" = JString penId.
Proof.
  destruct (updateProduct_partial (rt := exampleRuntime)
              (request (object [("price", JNumber (Finite 2))]) (Some penId) [])
              penId 0 shop penDoc eq_refl eq_refl eq_refl)
    as (d' & db' & Hrun & _ & Hsame & Hkeep & Hset & _).
  - exists (<["price" := JNumber (Finite 2)]> ∅). split_and!; reflexivity.
  - reflexivity.
  - exists d', db'. split_and!; [exact Hrun| | | |].
    + eapply (proj2 (Hset "price" _ (BNumber (Finite 2)) eq_refl eq_refl)).
    + rewrite (proj2 (Hkeep "name" ltac:(by left))). reflexivity.
    + rewrite (proj2 (Hkeep "inStock" ltac:(by left))). reflexivity.
    + rewrite Hsame. reflexivity.
Defined.

(** C7 as stated fails on an identifier that names no product when the
    payload fails a validator: the collection is empty, and [updateProduct]
    answers 500 "Server error", not 404 "Product not found". *)
Lemma missing_product_invalid_update :
  isValidObjectId (Some penId) = true
  ∧ docs emptyDb = []
  ∧ ∃ err,
      run (rt := exampleRuntime)
        (updateProduct
           (request (object [("price", JNumber (Finite (-2)))])
              (Some penId) [])) emptyDb
      = Some ({| status := 500;
                 payload := object [("message", JString "Server error");
                                    ("error", JString (String_ err))] |},
              emptyDb)
      ∧ err_name err = "ValidationError"
      ∧ {| status := 500;
           payload := object [("message", JString "Server error");
                              ("error", JString (String_ err))] |}
        ≠ {| status := 404; payload := message "Product not found" |}.
Proof.
  split_and!; [reflexivity..|].
  eexists. split_and!; [reflexivity|reflexivity|discriminate].
Qed.


(** ** Deleting a product *)

Lemma removeDoc_sublist (n : N) (l : list Document) :
  sublist (removeDoc n l) l.
Proof.
  induction l as [|x l IH]; simpl; [constructor|].
  destruct (_id x =? n); by constructor.
Qed.

Lemma findDoc_removeDoc (n : N) (l : list Document) :
  NoDup (_id <$> l) -> findDoc n (removeDoc n l) = None.
Proof.
  induction l as [|x l IH]; simpl; [done|].
  rewrite NoDup_cons. intros [Hout Hnd].
  destruct (_id x =? n) eqn:E.
  - apply N.eqb_eq in E. subst n. by apply findDoc_None.
  - unfold findDoc in *. simpl. rewrite E. by apply IH.
Qed.

Lemma replaceDoc_ids (n : N) (d' : Document) (l : list Document) :
  _id d' = n -> _id <$> replaceDoc n d' l = _id <$> l.
Proof.
  intros Hid. induction l as [|x l IH]; simpl; [done|].
  destruct (_id x =? n) eqn:E; simpl.
  - apply N.eqb_eq in E. by rewrite Hid, E.
  - f_equal. exact IH.
Qed.

Section Deleting.
Context {rt : Runtime}.

(** C8. A stored product -- one that was created and not yet deleted --
    is deleted with 200 "Product deleted successfully", and
    [getProductById] with its identifier then answers 404
    "Product not found". *)
Theorem deleteProduct_then_getProductById (req : Request) (id : string)
    (n : N) (db : Db) (d : Document) :
  params req !! "id" = Some id ->
  ObjectId.fromString id = Some n ->
  wf db -> findDoc n (docs db) = Some d -> fault db = None ->
  ∃ db',
    run (deleteProduct req) db
    = Some ({| status := 200;
               payload := message "Product deleted successfully" |}, db')
    ∧ docs db' = removeDoc n (docs db)
    ∧ (∀ req', params req' !! "id" = Some id ->
         run (getProductById req') db'
         = Some ({| status := 404;
                    payload := message "Product not found" |}, db')).
Proof.
  intros Hid Hn [Hnd _] Hd Hf.
  assert (Hv : isValidObjectId (Some id) = true)
    by (apply isValidObjectId_spec; eauto).
  unfold deleteProduct. rewrite Hid, Hv.
  assert (id_missing (Some id) = false) as ->
    by (destruct id; [discriminate Hv|done]).
  cbn [negb]. rewrite run_try_await. cbn [perform].
  unfold Product_findByIdAndDelete, castId, roundTrip. rewrite Hn, Hf, Hd.
  cbn [run json]. eexists. split; [reflexivity|]. split; [reflexivity|].
  intros req' Hid'.
  erewrite run_getProductById; [|exact Hid'|exact Hn|reflexivity].
  cbn [docs]. by rewrite findDoc_removeDoc.
Qed.

End Deleting.

(** ** What a call does to the collection *)

Lemma removeDoc_notfound (n : N) (l : list Document) :
  findDoc n l = None -> removeDoc n l = l.
Proof.
  unfold findDoc. induction l as [|x l IH]; simpl; [done|].
  destruct (_id x =? n); [done|]. intros H. by rewrite IH.
Qed.

Lemma removeDoc_length (n : N) (l : list Document) (d : Document) :
  findDoc n l = Some d -> (length (removeDoc n l) + 1 = length l)%nat.
Proof.
  unfold findDoc. induction l as [|x l IH]; simpl; [done|].
  destruct (_id x =? n); [lia|]. intros H. simpl. by rewrite IH.
Qed.

Lemma findDoc_removeDoc_ne (m n : N) (l : list Document) :
  m ≠ n -> findDoc m (removeDoc n l) = findDoc m l.
Proof.
  unfold findDoc. intros Hne. induction l as [|x l IH]; simpl; [done|].
  destruct (_id x =? n) eqn:E; simpl.
  - apply N.eqb_eq in E.
    assert ((_id x =? m) = false) as -> by (apply N.eqb_neq; congruence).
    done.
  - destruct (_id x =? m); [done|apply IH].
Qed.

Lemma findDoc_app_found (m : N) (l l' : list Document) (d : Document) :
  findDoc m l = Some d -> findDoc m (l ++ l') = Some d.
Proof.
  unfold findDoc. induction l as [|x l IH]; simpl; [done|].
  destruct (_id x =? m); [done|apply IH].
Qed.

Lemma Db_eta (db : Db) :
  {| docs := docs db; next_id := next_id db; fault := fault db |} = db.
Proof. by destruct db. Qed.

Section Calls.
Context {rt : Runtime}.

Lemma roundTrip_inv {X} (db db' : Db) (k : Settled X * Db) (s : Settled X) :
  roundTrip db k = (s, db') ->
  (fault db = None ∧ k = (s, db'))
  ∨ (∃ e, fault db = Some (Unreachable e) ∧ s = Rejected e ∧ db' = db)
  ∨ (∃ e, fault db = Some (ReplyLost e) ∧ s = Rejected e ∧ db' = k.2).
Proof.
  unfold roundTrip.
  destruct (fault db) as [[e|e]|]; [intros [= <- <-]; eauto 8..|].
  intros ->. by left.
Qed.

(** The two reads change nothing. *)
Lemma perform_find (q : gmap string JsValue) (db db' : Db) s :
  perform (Find q) db = Some (s, db') -> db' = db.
Proof.
  cbn [perform]. unfold Product_find.
  destruct (conditions q) as [c|]; [|discriminate].
  destruct (existsb _ _); [discriminate|].
  destruct (omap _ _); [|by intros [=]].
  intros [= H].
  by apply roundTrip_inv in H as [[_ [= _ <-]]|[(e & _ & _ & ->)|(e & _ & _ & ->)]].
Qed.

Lemma perform_findById (id : option string) (db db' : Db) s :
  perform (FindById id) db = Some (s, db') -> db' = db.
Proof.
  cbn [perform]. unfold Product_findById.
  destruct id; [|discriminate]. destruct (castId _); [by intros [=]|].
  intros [= H].
  by apply roundTrip_inv in H as [[_ [= _ <-]]|[(e & _ & _ & ->)|(e & _ & _ & ->)]].
Qed.

(** [Product.create] leaves the collection as it was and is rejected, or
    the document has passed the casts and the validators and is inserted:
    then the call is fulfilled with it, unless the reply is lost. *)
Lemma perform_create_inv (obj : JsValue) (db db' : Db) (s : Settled Document) :
  perform (Create obj) db = Some (s, db') ->
  (db' = db ∧ ∃ e, s = Rejected e)
  ∨ ∃ d, errorsOf (hydrate obj) = []
         ∧ d = {| _id := next_id db;
                  fields := <[versionKey := BNumber (Finite 0)]>
                              (list_to_map (castedOf (hydrate obj))) |}
         ∧ db' = {| docs := docs db ++ [d]; next_id := next_id db + 1;
                    fault := fault db |}
         ∧ ((fault db = None ∧ s = Fulfilled d)
            ∨ ∃ e, fault db = Some (ReplyLost e) ∧ s = Rejected e).
Proof.
  cbn [perform]. unfold Product_create.
  destruct (errorsOf _) eqn:Herr; [|intros [= <- <-]; left; eauto].
  intros [= H].
  apply roundTrip_inv in H as [[Hf [= <- <-]]|[(e & _ & -> & ->)|(e & Hf & -> & ->)]].
  - right. eexists. split_and!; [done..|]. by left.
  - left. eauto.
  - right. eexists. split_and!; [done..|]. right. eauto.
Qed.

(** [Product.findByIdAndUpdate] leaves the collection as it was -- it is
    rejected, or finds no product -- or the update has passed the casts and
    the validators and the product it names is rewritten: then the call is
    fulfilled with the product, unless the reply is lost. *)
Lemma perform_update_inv (id : option string) (u : JsValue) opts
    (db db' : Db) (s : Settled (option Document)) :
  perform (FindByIdAndUpdate id u opts) db = Some (s, db') ->
  (db' = db ∧ (s = Fulfilled None ∨ ∃ e, s = Rejected e))
  ∨ ∃ i n o d,
      id = Some i ∧ ObjectId.fromString i = Some n
      ∧ updateFields u = Some o
      ∧ castErrorsOf (castUpdate o) = []
      ∧ (runValidators opts = true -> errorsOf (castUpdate o) = [])
      ∧ findDoc n (docs db) = Some d
      ∧ let d' := {| _id := _id d;
                     fields := setFields (castedOf (castUpdate o))
                                 (fields d) |} in
        db' = {| docs := replaceDoc n d' (docs db); next_id := next_id db;
                 fault := fault db |}
        ∧ ((fault db = None ∧ s = Fulfilled (Some (if new opts then d' else d)))
           ∨ ∃ e, fault db = Some (ReplyLost e) ∧ s = Rejected e).
Proof.
  cbn [perform]. unfold Product_findByIdAndUpdate, castId.
  destruct id as [i|]; [|discriminate].
  destruct (updateFields u) as [o|]; [|discriminate].
  destruct (ObjectId.fromString i) as [n|] eqn:Hn;
    [|intros [= <- <-]; left; eauto].
  destruct (castErrorsOf _) eqn:Hc; [|intros [= <- <-]; left; eauto].
  destruct (if runValidators opts then _ else _) eqn:Hv;
    [|intros [= <- <-]; left; eauto].
  assert (Hval : runValidators opts = true -> errorsOf (castUpdate o) = [])
    by (intros E; by rewrite E in Hv).
  intros [= H].
  destruct (findDoc n (docs db)) as [d|] eqn:Hd.
  - apply roundTrip_inv in H
      as [[Hf [= <- <-]]|[(e & _ & -> & ->)|(e & Hf & -> & ->)]].
    + right. exists i, n, o, d. split_and!; try done. by left.
    + left. eauto.
    + right. exists i, n, o, d. split_and!; try done. right. eauto.
  - apply roundTrip_inv in H
      as [[Hf [= <- <-]]|[(e & _ & -> & ->)|(e & Hf & -> & ->)]];
      left; eauto.
Qed.

(** [Product.findByIdAndDelete] likewise: nothing changes, or the product
    it names is removed. *)
Lemma perform_delete_inv (id : option string) (db db' : Db)
    (s : Settled (option Document)) :
  perform (FindByIdAndDelete id) db = Some (s, db') ->
  (db' = db ∧ (s = Fulfilled None ∨ ∃ e, s = Rejected e))
  ∨ ∃ i n d,
      id = Some i ∧ ObjectId.fromString i = Some n
      ∧ findDoc n (docs db) = Some d
      ∧ db' = {| docs := removeDoc n (docs db); next_id := next_id db;
                 fault := fault db |}
      ∧ ((fault db = None ∧ s = Fulfilled (Some d))
         ∨ ∃ e, fault db = Some (ReplyLost e) ∧ s = Rejected e).
Proof.
  cbn [perform]. unfold Product_findByIdAndDelete, castId.
  destruct id as [i|]; [|discriminate].
  destruct (ObjectId.fromString i) as [n|] eqn:Hn;
    [|intros [= <- <-]; left; eauto].
  intros [= H].
  destruct (findDoc n (docs db)) as [d|] eqn:Hd.
  - apply roundTrip_inv in H
      as [[Hf [= <- <-]]|[(e & _ & -> & ->)|(e & Hf & -> & ->)]].
    + right. exists i, n, d. split_and!; try done. by left.
    + left. eauto.
    + right. exists i, n, d. split_and!; try done. right. eauto.
  - assert (Hsame : {| docs := removeDoc n (docs db); next_id := next_id db;
                       fault := fault db |} = db)
      by (rewrite removeDoc_notfound by done; apply Db_eta).
    apply roundTrip_inv in H
      as [[Hf [= <- <-]]|[(e & _ & -> & ->)|(e & Hf & -> & ->)]];
      left; cbn [snd]; eauto.
Qed.

(** Every call on the model keeps the collection well-formed. *)
Lemma perform_wf {X} (call : ProductCall X) (db db' : Db) (s : Settled X) :
  perform call db = Some (s, db') -> wf db -> wf db'.
Proof.
  intros Hp Hwf. destruct call as [q|id|obj|id u opts|id].
  - by apply perform_find in Hp as ->.
  - by apply perform_findById in Hp as ->.
  - apply perform_create_inv in Hp as [[-> _]|(d & _ & -> & -> & _)]; [done|].
    destruct Hwf as [Hnd Hlt]. unfold wf, ids in *. cbn [docs next_id].
    rewrite fmap_app. cbn [fmap list_fmap _id]. split.
    + apply NoDup_app. split_and!; [done| |apply NoDup_singleton].
      intros m Hm Hm'. apply list_elem_of_singleton in Hm'. subst m.
      rewrite Forall_forall in Hlt. specialize (Hlt _ Hm). lia.
    + apply Forall_app. split.
      * eapply Forall_impl; [exact Hlt|]. simpl. intros; lia.
      * apply Forall_singleton. lia.
  - apply perform_update_inv in Hp
      as [[-> _]|(i & n & o & d & _ & _ & _ & _ & _ & Hd & -> & _)]; [done|].
    destruct (findDoc_Some _ _ _ Hd) as [_ Hid].
    unfold wf, ids in *. cbn [docs next_id].
    by rewrite replaceDoc_ids.
  - apply perform_delete_inv in Hp
      as [[-> _]|(i & n & d & _ & _ & _ & -> & _)]; [done|].
    destruct Hwf as [Hnd Hlt]. unfold wf, ids in *. cbn [docs next_id].
    pose proof (fmap_sublist _id _ _ (removeDoc_sublist n (docs db))) as Hsub.
    split; [by eapply sublist_NoDup|].
    rewrite Forall_forall in *. intros m Hm. apply Hlt.
    by apply (sublist_subseteq _ _ Hsub).
Qed.

(** Every handler keeps the collection well-formed. *)
Lemma run_wf (h : Handler) (db db' : Db) (r : Response) :
  run h db = Some (r, db') -> wf db -> wf db'.
Proof.
  revert db. induction h as [r0|X call k IH]; intros db; cbn [run].
  - by intros [= _ <-].
  - destruct (perform call db) as [[s db1]|] eqn:Hp; [|discriminate].
    intros Hrun Hwf. eapply IH; [exact Hrun|]. by eapply perform_wf.
Qed.

End Calls.

(** The scenario in full: the pen is created, deleted, and gone. *)
Lemma deleteProduct_then_getProductById_witness :
  run (rt := exampleRuntime) (createProduct (request pen None [])) emptyDb
  = Some ({| status := 201;
             payload := object
               [("message", JString "Product created successfully");
                ("product", toJSON penDoc)] |}, shop)
  ∧ ∃ db',
      run (rt := exampleRuntime)
        (deleteProduct (request JUndefined (Some penId) [])) shop
      = Some ({| status := 200;
                 payload := message "Product deleted successfully" |}, db')
      ∧ run (rt := exampleRuntime)
          (getProductById (request JUndefined (Some penId) [])) db'
        = Some ({| status := 404; payload := message "Product not found" |},
                db').
Proof.
  split; [reflexivity|].
  destruct (deleteProduct_then_getProductById (rt := exampleRuntime)
              (request JUndefined (Some penId) []) penId 0 shop penDoc
              eq_refl eq_refl)
    as (db' & Hdel & _ & Hget).
  - split; [apply NoDup_singleton|apply Forall_singleton; reflexivity].
  - reflexivity.
  - reflexivity.
  - exists db'. split; [exact Hdel|]. apply Hget. reflexivity.
Defined.

(** ** The shape of the responses *)

Lemma hasMessage_message (m : string) : hasMessage (message m) = true.
Proof. reflexivity. Qed.

(** C9, as the code has it. Every handler answers -- at once, or after
    its one call on the model however that call settles, so nothing a call
    throws escapes the handler. A rejected call is answered with 500 and the
    object [{message: "Server error", error: String(err)}]. Every response
    is an object with a string under [message], except the two successful
    reads: [getProducts] answers 200 with the array of the products found
    and [getProductById] answers 200 with the product itself. *)
Theorem responses_shape (op : Operation) (req : Request) :
  ((∃ r, handler op req = Respond r)
   ∨ ∃ X (call : ProductCall X) k,
       handler op req = Await call k
       ∧ (∀ s, ∃ r, k s = Respond r)
       ∧ (∀ err,
            k (Rejected err)
            = Respond
                {| status := 500;
                   payload := object [("message", JString "Server error");
                                      ("error", JString (String_ err))] |}))
  ∧ (∀ r, responds (handler op req) r ->
          hasMessage (payload r) = true
          ∨ (op = List_ ∧ status r = 200
             ∧ ∃ products, products ≠ []
                           ∧ payload r = JArray (toJSON <$> products))
          ∨ (op = GetByOne ∧ status r = 200 ∧ ∃ p, payload r = toJSON p)).
Proof.
  destruct op; cbn [handler].
  - (* getProducts *)
    unfold getProducts, try_await. split_and!.
    + right. eexists _, _, _. split_and!; [reflexivity| |done].
      intros [products|err]; [|(eexists; reflexivity)].
      destruct (bool_decide _); (eexists; reflexivity).
    + cbn [responds]. intros r [[products|err] Hr].
      * destruct products as [|p products].
        -- rewrite bool_decide_eq_true_2 in Hr by done.
           cbn in Hr. subst r. by left.
        -- rewrite bool_decide_eq_false_2 in Hr by done.
           cbn in Hr. subst r. right; left. split_and!; try done.
           by exists (p :: products).
      * cbn in Hr. subst r. by left.
  - (* getProductById *)
    unfold getProductById, try_await.
    destruct (isValidObjectId (params req !! "id")); cbn [negb].
    + split_and!.
      * right. eexists _, _, _. split_and!; [reflexivity| |done].
        intros [[p|]|err]; (eexists; reflexivity).
      * cbn [responds]. intros r [[[p|]|err] Hr]; cbn in Hr; subst r.
        -- right; right. split_and!; try done. by exists p.
        -- by left.
        -- by left.
    + split_and!.
      * left. (eexists; reflexivity).
      * cbn. intros r <-. by left.
  - (* createProduct *)
    unfold createProduct, try_await.
    destruct (truthy (body req)); cbn [negb];
      [destruct (_ || _)|]; split_and!;
      try (left; eexists; reflexivity);
      try (by cbn; intros r <-; left).
    + right. eexists _, _, _. split_and!; [reflexivity| |done].
      intros [p|err]; (eexists; reflexivity).
    + cbn [responds]. intros r [[p|err] Hr]; cbn in Hr; subst r; by left.
  - (* updateProduct *)
    unfold updateProduct, try_await.
    destruct (id_missing _); [|destruct (isValidObjectId _); cbn [negb]];
      split_and!;
      try (left; eexists; reflexivity);
      try (by cbn; intros r <-; left).
    + right. eexists _, _, _. split_and!; [reflexivity| |done].
      intros [[p|]|err]; (eexists; reflexivity).
    + cbn [responds]. intros r [[[p|]|err] Hr]; cbn in Hr; subst r; by left.
  - (* deleteProduct *)
    unfold deleteProduct, try_await.
    destruct (id_missing _); [|destruct (isValidObjectId _); cbn [negb]];
      split_and!;
      try (left; eexists; reflexivity);
      try (by cbn; intros r <-; left).
    + right. eexists _, _, _. split_and!; [reflexivity| |done].
      intros [[p|]|err]; (eexists; reflexivity).
    + cbn [responds]. intros r [[[p|]|err] Hr]; cbn in Hr; subst r; by left.
Qed.

(** C9 as stated fails on the two successful reads: [getProducts] answers
    with the bare array of products and [getProductById] with the bare
    product; neither payload has a [message]. *)
Lemma successful_reads_have_no_message :
  run (rt := exampleRuntime) (getProducts (request JUndefined None [])) shop
  = Some ({| status := 200; payload := JArray [toJSON penDoc] |}, shop)
  ∧ hasMessage (JArray [toJSON penDoc]) = false
  ∧ run (rt := exampleRuntime)
      (getProductById (request JUndefined (Some penId) [])) shop
    = Some ({| status := 200; payload := toJSON penDoc |}, shop)
  ∧ hasMessage (toJSON penDoc) = false.
Proof. split_and!; reflexivity. Qed.

Lemma responses_shape_witness :
  responds (deleteProduct (request JUndefined (Some penId) []))
    {| status := 404; payload := message "Product not found" |}
  ∧ hasMessage (message "Product not found") = true.
Proof.
  assert (H : responds (deleteProduct (request JUndefined (Some penId) []))
                {| status := 404; payload := message "Product not found" |})
    by (exists (Fulfilled None); reflexivity).
  split; [exact H|].
  destruct (proj2 (responses_shape Delete
                     (request JUndefined (Some penId) [])) _ H)
    as [Hm|[(Hop & _)|(Hop & _)]];
    [exact Hm|discriminate Hop|discriminate Hop].
Defined.


(** ** The data model's invariant *)

Lemma productSchema_paths (path : string) (st : SchemaType) :
  (path, st) ∈ productSchema -> (path, st) ∈ schema_paths ∧ path ≠ versionKey.
Proof.
  intros Hin. split; [apply elem_of_app; by left|].
  intros ->. unfold productSchema in Hin. rewrite !elem_of_cons in Hin.
  destruct Hin as [H|[H|[H|[H|[H|H]]]]]; try discriminate H.
  by apply elem_of_nil in H.
Qed.

Lemma schema_paths_functional (path : string) (st st' : SchemaType) :
  (path, st) ∈ schema_paths -> (path, st') ∈ schema_paths -> st = st'.
Proof.
  intros H H'. apply schema_path_elem in H, H'. congruence.
Qed.

Lemma Forall_replaceDoc (P : Document -> Prop) n d' (l : list Document) :
  Forall P l -> P d' -> Forall P (replaceDoc n d' l).
Proof.
  intros Hl Hd. induction Hl as [|x l Hx Hl IH]; simpl; [constructor|].
  destruct (_id x =? n); by constructor.
Qed.

(** What a conforming document holds: non-empty texts and a price that is
    a number not below zero. *)
Lemma conforms_fields (d : Document) :
  conforms d ->
  (∃ s, fields d !! "name" = Some (BString s) ∧ s ≠ EmptyString)
  ∧ (∃ s, fields d !! "brand" = Some (BString s) ∧ s ≠ EmptyString)
  ∧ (∃ s, fields d !! "category" = Some (BString s) ∧ s ≠ EmptyString)
  ∧ (∃ n, fields d !! "price" = Some (BNumber n)
          ∧ num_ge n (Finite 0) = true).
Proof.
  intros H. unfold conforms, productSchema, stored in H.
  split_and!.
  - specialize (H "name" _ ltac:(rewrite !elem_of_cons; by left)).
    destruct (fields d !! "name") as [[|[]| |]|]; try discriminate H.
    by eexists.
  - specialize (H "brand" _ ltac:(rewrite !elem_of_cons; right; by left)).
    destruct (fields d !! "brand") as [[|[]| |]|]; try discriminate H.
    by eexists.
  - specialize (H "category" _
                  ltac:(rewrite !elem_of_cons; do 2 right; by left)).
    destruct (fields d !! "category") as [[|[]| |]|]; try discriminate H.
    by eexists.
  - specialize (H "price" _ ltac:(rewrite !elem_of_cons; do 3 right; by left)).
    destruct (fields d !! "price") as [[| |n|]|]; try discriminate H.
    exists n. split; [done|]. unfold doValidate in H. simpl in H.
    by destruct (num_ge n (Finite 0)).
Qed.

Section Invariant.
Context {rt : Runtime}.

Lemma hydrate_elem (obj : JsValue) path st v c :
  (path, st, v, c) ∈ hydrate obj <->
  (path, st) ∈ productSchema ∧ v = get obj path
  ∧ c = applyDefault st (cast (st_type st) (get obj path)).
Proof.
  unfold hydrate. rewrite list_elem_of_fmap. split.
  - intros ([p s] & [= -> -> -> ->] & Hin). done.
  - intros (Hin & -> & ->). by exists (path, st).
Qed.

Lemma errorsOf_nil l path st v c :
  errorsOf l = [] -> (path, st, v, c) ∈ l ->
  c ≠ CastFailed ∧ doValidate st c = None.
Proof.
  intros Hnil Hin.
  destruct (pathError path st v c) as [msg|] eqn:E.
  - pose proof (errorsOf_elem _ _ _ _ _ _ Hin E) as H.
    rewrite Hnil in H. by apply elem_of_nil in H.
  - unfold pathError in E. by destruct c.
Qed.

Lemma castedOf_hydrate_keys (obj : JsValue) :
  NoDup (castedOf (hydrate obj)).*1.
Proof.
  eapply sublist_NoDup.
  - eapply (sublist_NoDup _ schema_paths.*1); [apply schema_paths_NoDup|].
    unfold schema_paths. rewrite fmap_app. apply sublist_inserts_r. reflexivity.
  - unfold castedOf, hydrate. generalize productSchema as ps.
    induction ps as [|[p st] ps IH]; simpl; [constructor|].
    destruct (applyDefault st _); simpl; by constructor.
Qed.

(** A created document holds, under each path of the schema, the value the
    path was cast (or defaulted) to. *)
Lemma created_stored (obj : JsValue) (n : N) path st :
  (path, st) ∈ productSchema ->
  applyDefault st (cast (st_type st) (get obj path)) ≠ CastFailed ->
  stored {| _id := n;
            fields := <[versionKey := BNumber (Finite 0)]>
                        (list_to_map (castedOf (hydrate obj))) |} path
  = applyDefault st (cast (st_type st) (get obj path)).
Proof.
  intros Hin Hc. destruct (productSchema_paths _ _ Hin) as [Hs Hv].
  unfold stored. cbn [fields]. rewrite lookup_insert_ne by done.
  destruct (applyDefault st _) as [b| |] eqn:E; [| |done].
  - erewrite (proj1 (elem_of_list_to_map _ _ _ (castedOf_hydrate_keys obj))) ;
      [done|].
    apply castedOf_elem. exists st, (get obj path).
    apply hydrate_elem. by rewrite E.
  - rewrite not_elem_of_list_to_map_1; [done|].
    rewrite list_elem_of_fmap. intros ([k b] & -> & Hk). cbn [fst] in *.
    apply castedOf_elem in Hk as (st' & v & Hk).
    apply hydrate_elem in Hk as (Hin' & _ & Hc').
    destruct (productSchema_paths _ _ Hin') as [Hs' _].
    rewrite (schema_paths_functional _ _ _ Hs' Hs) in Hc'. congruence.
Qed.

Lemma perform_conforms {X} (call : ProductCall X) (db db' : Db)
    (s : Settled X) :
  validating call ->
  perform call db = Some (s, db') ->
  Forall conforms (docs db) -> Forall conforms (docs db').
Proof.
  intros Hval Hp Hall.
  destruct call as [q|id|obj|id u opts|id].
  - by apply perform_find in Hp as ->.
  - by apply perform_findById in Hp as ->.
  - apply perform_create_inv in Hp as [[-> _]|(d & Herr & -> & -> & _)];
      [done|]. cbn [docs].
    apply Forall_app. split; [done|]. apply Forall_singleton.
    intros path st Hin.
    destruct (errorsOf_nil _ path st (get obj path)
                (applyDefault st (cast (st_type st) (get obj path))) Herr)
      as [Hc Hok]; [by apply hydrate_elem|].
    by rewrite (created_stored _ _ _ st).
  - cbn in Hval. apply perform_update_inv in Hp
      as [[-> _]|(i & n & o & d & _ & _ & _ & _ & Herr & Hd & -> & _)];
      [done|]. specialize (Herr Hval).
    cbn [docs]. apply Forall_replaceDoc; [done|].
    destruct (findDoc_Some _ _ _ Hd) as [Hdin _].
    rewrite Forall_forall in Hall. specialize (Hall _ Hdin).
    intros path st Hin. unfold stored. cbn [fields].
    destruct (decide (path ∈ (castedOf (castUpdate o)).*1)) as [Hk|Hk].
    + apply list_elem_of_fmap in Hk as ([k b] & -> & Hk). simpl.
      rewrite (lookup_setFields_in _ _ _ b (castedOf_castUpdate_keys o) Hk).
      apply castedOf_elem in Hk as (st' & v & Hk).
      destruct (errorsOf_nil _ _ _ _ _ Herr Hk) as [_ Hok].
      apply castUpdate_elem in Hk as (Hs' & _).
      destruct (productSchema_paths _ _ Hin) as [Hs _].
      by rewrite (schema_paths_functional _ _ _ Hs Hs').
    + rewrite lookup_setFields_notin by done. by apply Hall.
  - apply perform_delete_inv in Hp
      as [[-> _]|(i & n & d & _ & _ & _ & -> & _)]; [done|]. cbn [docs].
    rewrite Forall_forall in *. intros d' Hd'. apply Hall.
    by apply (sublist_subseteq _ _ (removeDoc_sublist n (docs db))).
Qed.

Lemma run_conforms (h : Handler) (db db' : Db) (r : Response) :
  allValidating h ->
  run h db = Some (r, db') ->
  Forall conforms (docs db) -> Forall conforms (docs db').
Proof.
  revert db. induction h as [r0|X call k IH]; intros db; cbn [run].
  - by intros _ [= _ <-].
  - intros [Hval Hk].
    destruct (perform call db) as [[s db1]|] eqn:Hp; [|discriminate].
    intros Hrun Hall. eapply IH; [apply Hk|exact Hrun|].
    by eapply perform_conforms.
Qed.

Lemma handler_allValidating (op : Operation) (req : Request) :
  allValidating (handler op req).
Proof.
  destruct op; cbn [handler].
  - unfold getProducts, try_await. split; [done|].
    intros [products|err]; [|done]. by destruct (bool_decide _).
  - unfold getProductById, try_await.
    destruct (negb _); [done|]. split; [done|]. by intros [[p|]|err].
  - unfold createProduct, try_await.
    destruct (negb _); [done|]. destruct (_ || _); [done|].
    split; [done|]. by intros [p|err].
  - unfold updateProduct, try_await.
    destruct (id_missing _); [done|]. destruct (negb _); [done|].
    split; [done|]. by intros [[p|]|err].
  - unfold deleteProduct, try_await.
    destruct (id_missing _); [done|]. destruct (negb _); [done|].
    split; [done|]. by intros [[p|]|err].
Qed.

(** X1. The invariant of the data model. Whatever request one of the five
    handlers serves, if every stored product passed the schema's validators
    before, every stored product passes them after: non-empty name, brand
    and category, and a price that is a number not below zero. *)
Theorem handlers_keep_products_valid (op : Operation) (req : Request)
    (db db' : Db) (r : Response) :
  run (handler op req) db = Some (r, db') ->
  Forall conforms (docs db) -> Forall conforms (docs db').
Proof. apply run_conforms, handler_allValidating. Qed.

End Invariant.

Lemma handlers_keep_products_valid_witness :
  Forall conforms (docs shop)
  ∧ run (rt := exampleRuntime)
      (updateProduct
         (request (object [("price", JNumber (Finite 2))]) (Some penId) []))
      shop
    = Some ({| status := 200;
               payload := object
                 [("message", JString "Product updated successfully");
                  ("product", toJSON repricedPen)] |},
            {| docs := [repricedPen]; next_id := 1; fault := None |})
  ∧ Forall conforms [repricedPen].
Proof.
  assert (H : Forall conforms (docs shop)).
  { apply Forall_singleton. intros path st Hin.
    unfold productSchema in Hin. rewrite !elem_of_cons in Hin.
    destruct Hin as [H|[H|[H|[H|[H|H]]]]];
      [..|by apply elem_of_nil in H]; by simplify_eq. }
  split; [exact H|]. split; [reflexivity|].
  apply (handlers_keep_products_valid (rt := exampleRuntime) Update
           (request (object [("price", JNumber (Finite 2))]) (Some penId) [])
           shop {| docs := [repricedPen]; next_id := 1; fault := None |}
           {| status := 200;
              payload := object
                [("message", JString "Product updated successfully");
                 ("product", toJSON repricedPen)] |});
    [reflexivity|exact H].
Defined.


(** ** The documented status codes *)

(** X2. The status codes of a handler are exactly those its swagger block
    documents: whatever the request and however the call on the model
    settles, the status is one of them, and each of them is the status of
    some request and outcome. *)
Theorem responses_documented (op : Operation) :
  (∀ req r, responds (handler op req) r -> status r ∈ documented op)
  ∧ (∀ c, c ∈ documented op ->
          ∃ req r, responds (handler op req) r ∧ status r = c).
Proof.
  split.
  - intros req r. destruct op; cbn [handler documented].
    + unfold getProducts, try_await. cbn [responds].
      intros [[products|err] Hr].
      * destruct (bool_decide _); cbn in Hr; subst r; cbn [status];
          rewrite !elem_of_cons; tauto.
      * cbn in Hr. subst r. cbn [status]. rewrite !elem_of_cons. tauto.
    + unfold getProductById, try_await.
      destruct (negb _); cbn [responds].
      * cbn. intros <-. cbn [status]. rewrite !elem_of_cons. tauto.
      * intros [[[p|]|err] Hr]; cbn in Hr; subst r; cbn [status];
          rewrite !elem_of_cons; tauto.
    + unfold createProduct, try_await.
      destruct (negb _); [|destruct (_ || _)]; cbn [responds].
      * cbn. intros <-. cbn [status]. rewrite !elem_of_cons. tauto.
      * cbn. intros <-. cbn [status]. rewrite !elem_of_cons. tauto.
      * intros [[p|err] Hr]; cbn in Hr; subst r; cbn [status];
          rewrite !elem_of_cons; tauto.
    + unfold updateProduct, try_await.
      destruct (id_missing _); [|destruct (negb _)]; cbn [responds].
      * cbn. intros <-. cbn [status]. rewrite !elem_of_cons. tauto.
      * cbn. intros <-. cbn [status]. rewrite !elem_of_cons. tauto.
      * intros [[[p|]|err] Hr]; cbn in Hr; subst r; cbn [status];
          rewrite !elem_of_cons; tauto.
    + unfold deleteProduct, try_await.
      destruct (id_missing _); [|destruct (negb _)]; cbn [responds].
      * cbn. intros <-. cbn [status]. rewrite !elem_of_cons. tauto.
      * cbn. intros <-. cbn [status]. rewrite !elem_of_cons. tauto.
      * intros [[[p|]|err] Hr]; cbn in Hr; subst r; cbn [status];
          rewrite !elem_of_cons; tauto.
  - pose (err := {| err_name := "MongooseError"; err_message := "timeout";
                    err_toString := None |}).
    intros c Hc. destruct op; cbn [handler documented] in *;
      rewrite !elem_of_cons in Hc.
    + destruct Hc as [->|[->|[->|Hc]]]; [..|by apply elem_of_nil in Hc].
      * exists (request JUndefined None []). eexists.
        split; [exists (Fulfilled [penDoc]); reflexivity|reflexivity].
      * exists (request JUndefined None []). eexists.
        split; [exists (Fulfilled []); reflexivity|reflexivity].
      * exists (request JUndefined None []). eexists.
        split; [exists (Rejected err); reflexivity|reflexivity].
    + destruct Hc as [->|[->|[->|[->|Hc]]]]; [..|by apply elem_of_nil in Hc].
      * exists (request JUndefined (Some penId) []). eexists.
        split; [exists (Fulfilled (Some penDoc)); reflexivity|reflexivity].
      * exists (request JUndefined None []). eexists.
        split; [reflexivity|reflexivity].
      * exists (request JUndefined (Some penId) []). eexists.
        split; [exists (Fulfilled None); reflexivity|reflexivity].
      * exists (request JUndefined (Some penId) []). eexists.
        split; [exists (Rejected err); reflexivity|reflexivity].
    + destruct Hc as [->|[->|[->|Hc]]]; [..|by apply elem_of_nil in Hc].
      * exists (request pen None []). eexists.
        split; [exists (Fulfilled penDoc); reflexivity|reflexivity].
      * exists (request JUndefined None []). eexists.
        split; [reflexivity|reflexivity].
      * exists (request pen None []). eexists.
        split; [exists (Rejected err); reflexivity|reflexivity].
    + destruct Hc as [->|[->|[->|[->|Hc]]]]; [..|by apply elem_of_nil in Hc].
      * exists (request JUndefined (Some penId) []). eexists.
        split; [exists (Fulfilled (Some penDoc)); reflexivity|reflexivity].
      * exists (request JUndefined None []). eexists.
        split; [reflexivity|reflexivity].
      * exists (request JUndefined (Some penId) []). eexists.
        split; [exists (Fulfilled None); reflexivity|reflexivity].
      * exists (request JUndefined (Some penId) []). eexists.
        split; [exists (Rejected err); reflexivity|reflexivity].
    + destruct Hc as [->|[->|[->|[->|Hc]]]]; [..|by apply elem_of_nil in Hc].
      * exists (request JUndefined (Some penId) []). eexists.
        split; [exists (Fulfilled (Some penDoc)); reflexivity|reflexivity].
      * exists (request JUndefined None []). eexists.
        split; [reflexivity|reflexivity].
      * exists (request JUndefined (Some penId) []). eexists.
        split; [exists (Fulfilled None); reflexivity|reflexivity].
      * exists (request JUndefined (Some penId) []). eexists.
        split; [exists (Rejected err); reflexivity|reflexivity].
Qed.


(** ** What a request does to the collection *)

Section Effects.
Context {rt : Runtime}.

(** How a handler comes to its response and what it has done to the
    collection by then: nothing, or the one write of its operation, which
    it reports with 201 or 200 -- or with 500 when the reply was lost. *)
Lemma run_write_inv (op : Operation) (req : Request) (db db' : Db)
    (r : Response) :
  run (handler op req) db = Some (r, db') ->
  (db' = db
   ∧ (op = List_ ∨ op = GetByOne ∨ status r = 400 ∨ status r = 404
      ∨ status r = 500))
  ∨ (op = Create_
     ∧ ∃ d, errorsOf (hydrate (body req)) = []
       ∧ d = {| _id := next_id db;
                fields := <[versionKey := BNumber (Finite 0)]>
                            (list_to_map (castedOf (hydrate (body req)))) |}
       ∧ db' = {| docs := docs db ++ [d]; next_id := next_id db + 1;
                  fault := fault db |}
       ∧ ((fault db = None
           ∧ r = {| status := 201;
                    payload := object
                      [("message", JString "Product created successfully");
                       ("product", toJSON d)] |})
          ∨ (replyLost db = true ∧ status r = 500)))
  ∨ (op = Update
     ∧ ∃ i n o d,
         params req !! "id" = Some i ∧ ObjectId.fromString i = Some n
         ∧ updateFields (body req) = Some o
         ∧ castErrorsOf (castUpdate o) = [] ∧ errorsOf (castUpdate o) = []
         ∧ findDoc n (docs db) = Some d
         ∧ let d' := {| _id := _id d;
                        fields := setFields (castedOf (castUpdate o))
                                    (fields d) |} in
           db' = {| docs := replaceDoc n d' (docs db); next_id := next_id db;
                    fault := fault db |}
           ∧ ((fault db = None
               ∧ r = {| status := 200;
                        payload := object
                          [("message", JString "Product updated successfully");
                           ("product", toJSON d')] |})
              ∨ (replyLost db = true ∧ status r = 500)))
  ∨ (op = Delete
     ∧ ∃ i n d,
         params req !! "id" = Some i ∧ ObjectId.fromString i = Some n
         ∧ findDoc n (docs db) = Some d
         ∧ db' = {| docs := removeDoc n (docs db); next_id := next_id db;
                    fault := fault db |}
         ∧ ((fault db = None
             ∧ r = {| status := 200;
                      payload := message "Product deleted successfully" |})
            ∨ (replyLost db = true ∧ status r = 500))).
Proof.
  assert (Hlost : ∀ e, fault db = Some (ReplyLost e) -> replyLost db = true)
    by (intros e H; unfold replyLost; by rewrite H).
  intros Hrun. destruct op; cbn [handler] in Hrun.
  - left. split; [|by left]. unfold getProducts in Hrun.
    rewrite run_try_await in Hrun.
    destruct (perform _ db) as [[s db1]|] eqn:Hp; [|discriminate].
    apply perform_find in Hp as ->.
    destruct s as [x|e]; [|by simplify_eq].
    destruct (bool_decide _); cbn in Hrun; by simplify_eq.
  - left. split; [|right; by left]. unfold getProductById in Hrun.
    destruct (negb _); [cbn in Hrun; by simplify_eq|].
    rewrite run_try_await in Hrun.
    destruct (perform _ db) as [[s db1]|] eqn:Hp; [|discriminate].
    apply perform_findById in Hp as ->.
    destruct s as [[x|]|e]; cbn in Hrun; by simplify_eq.
  - unfold createProduct in Hrun.
    destruct (negb _);
      [left; cbn in Hrun; simplify_eq; split; [done|]; cbn; tauto|].
    destruct (_ || _);
      [left; cbn in Hrun; simplify_eq; split; [done|]; cbn; tauto|].
    cbv zeta in Hrun. fold (createArg (body req)) in Hrun.
    rewrite run_try_await in Hrun.
    destruct (perform _ db) as [[s db1]|] eqn:Hp; [|discriminate].
    apply perform_create_inv in Hp
      as [[-> [e ->]]|(d & Herr & Hd & -> & [[Hf ->]|(e & Hf & ->)])].
    + left. simplify_eq. split; [done|]. cbn. tauto.
    + right; left. split; [done|]. exists d.
      rewrite hydrate_createArg in Herr, Hd. cbn [run json] in Hrun.
      simplify_eq.
      split_and!; try done. by left.
    + right; left. split; [done|]. exists d.
      rewrite hydrate_createArg in Herr, Hd. simplify_eq.
      split_and!; try done. right. split; [by eapply Hlost|done].
  - unfold updateProduct in Hrun.
    destruct (id_missing _);
      [left; cbn in Hrun; simplify_eq; split; [done|]; cbn; tauto|].
    destruct (negb _);
      [left; cbn in Hrun; simplify_eq; split; [done|]; cbn; tauto|].
    rewrite run_try_await in Hrun.
    destruct (perform _ db) as [[s db1]|] eqn:Hp; [|discriminate].
    apply perform_update_inv in Hp
      as [[-> [->|[e ->]]]
         |(i & n & o & d & Hi & Hn & Ho & Hc & Hv & Hd & -> & [[Hf ->]|(e & Hf & ->)])].
    + left. cbn [run json] in Hrun. simplify_eq. split; [done|]. cbn. tauto.
    + left. simplify_eq. split; [done|]. cbn. tauto.
    + right; right; left. split; [done|]. exists i, n, o, d.
      cbn [run json] in Hrun. simplify_eq.
      split_and!; try done; [by apply Hv|]. cbv zeta. split; [done|]. by left.
    + right; right; left. split; [done|]. exists i, n, o, d.
      simplify_eq. split_and!; try done; [by apply Hv|].
      cbv zeta. split; [done|]. right. split; [by eapply Hlost|done].
  - unfold deleteProduct in Hrun.
    destruct (id_missing _);
      [left; cbn in Hrun; simplify_eq; split; [done|]; cbn; tauto|].
    destruct (negb _);
      [left; cbn in Hrun; simplify_eq; split; [done|]; cbn; tauto|].
    rewrite run_try_await in Hrun.
    destruct (perform _ db) as [[s db1]|] eqn:Hp; [|discriminate].
    apply perform_delete_inv in Hp
      as [[-> [->|[e ->]]]
         |(i & n & d & Hi & Hn & Hd & -> & [[Hf ->]|(e & Hf & ->)])].
    + left. cbn [run json] in Hrun. simplify_eq. split; [done|]. cbn. tauto.
    + left. simplify_eq. split; [done|]. cbn. tauto.
    + right; right; right. split; [done|]. exists i, n, d.
      cbn [run json] in Hrun. simplify_eq. split_and!; try done. by left.
    + right; right; right. split; [done|]. exists i, n, d.
      simplify_eq. split_and!; try done.
      right. split; [by eapply Hlost|done].
Qed.

(** X3. The two reads never change the collection, whatever they answer;
    a request answered with 400 or with 404 leaves it exactly as it was; and
    so does a request answered with 500, unless the server's reply to a
    write was lost -- then the write may have been carried out. *)
Theorem failures_and_reads_change_nothing (op : Operation) (req : Request)
    (db db' : Db) (r : Response) :
  run (handler op req) db = Some (r, db') ->
  op = List_ ∨ op = GetByOne ∨ status r = 400 ∨ status r = 404
  ∨ (status r = 500 ∧ replyLost db = false) ->
  db' = db.
Proof.
  intros Hrun Hwhy.
  destruct (run_write_inv _ _ _ _ _ Hrun)
    as [[-> _]
       |[(-> & d & _ & _ & _ & Hr)
        |[(-> & i & n & o & d & _ & _ & _ & _ & _ & _ & _ & Hr)
         |(-> & i & n & d & _ & _ & _ & _ & Hr)]]]; [done|..];
    (destruct Hr as [[_ ->]|[Hlost Hst]];
     destruct Hwhy as [H|[H|[H|[H|[H Hno]]]]];
     try discriminate H; congruence).
Qed.

(** X4. Only [createProduct] adds a product and only [deleteProduct]
    removes one, whatever the response. [createProduct] leaves the
    collection as it was or appends one product; when it answers 201 it has
    appended the very product its response carries. [deleteProduct] removes
    at most one product and keeps the others in their order; when it
    answers 200 it has removed exactly one. Every other handler,
    [updateProduct] included, leaves the stored identifiers as they
    were. *)
Theorem products_enter_and_leave (op : Operation) (req : Request)
    (db db' : Db) (r : Response) :
  run (handler op req) db = Some (r, db') ->
  (op = Create_ -> status r = 201 ->
   ∃ d, docs db' = (docs db ++ [d])%list
        ∧ payload r
          = object [("message", JString "Product created successfully");
                    ("product", toJSON d)])
  ∧ (op = Delete -> status r = 200 ->
     (length (docs db') + 1 = length (docs db))%nat
     ∧ sublist (docs db') (docs db))
  ∧ (op = Create_ ->
     docs db' = docs db ∨ ∃ d, docs db' = (docs db ++ [d])%list)
  ∧ (op = Delete ->
     sublist (docs db') (docs db)
     ∧ (length (docs db) <= length (docs db') + 1)%nat)
  ∧ (op ≠ Create_ -> op ≠ Delete -> ids db' = ids db).
Proof.
  intros Hrun.
  destruct (run_write_inv _ _ _ _ _ Hrun)
    as [[-> Hwhy]
       |[(-> & d & _ & _ & -> & Hr)
        |[(-> & i & n & o & d & _ & _ & _ & _ & _ & Hd & -> & _)
         |(-> & i & n & d & _ & _ & Hd & -> & Hr)]]].
  - split_and!; try done.
    + intros -> Hst.
      destruct Hwhy as [H|[H|[H|[H|H]]]]; try discriminate H; congruence.
    + intros -> Hst.
      destruct Hwhy as [H|[H|[H|[H|H]]]]; try discriminate H; congruence.
    + intros _. by left.
    + intros _. split; [done|lia].
  - cbn [docs]. split_and!; try done.
    + intros _ Hst. exists d. split; [done|].
      destruct Hr as [[_ ->]|[_ H]]; [done|congruence].
    + intros _. right. by exists d.
  - split_and!; try done. intros _ _. unfold ids. cbn [docs].
    apply replaceDoc_ids. by destruct (findDoc_Some _ _ _ Hd).
  - cbn [docs]. pose proof (removeDoc_length _ _ _ Hd) as Hlen.
    split_and!; try done.
    + intros _ _. split; [done|apply removeDoc_sublist].
    + intros _. split; [apply removeDoc_sublist|lia].
Qed.

End Effects.

Lemma failures_and_reads_change_nothing_witness :
  run (rt := exampleRuntime)
    (deleteProduct (request JUndefined (Some inkId) [])) shop
  = Some ({| status := 404; payload := message "Product not found" |},
          {| docs := removeDoc 1 (docs shop); next_id := 1; fault := None |})
  ∧ {| docs := removeDoc 1 (docs shop); next_id := 1; fault := None |} = shop.
Proof.
  split; [reflexivity|].
  apply (failures_and_reads_change_nothing (rt := exampleRuntime) Delete
           (request JUndefined (Some inkId) []) shop _
           {| status := 404; payload := message "Product not found" |});
    [reflexivity|].
  right; right; right; left. reflexivity.
Defined.

(** When the reply to the insert is lost, [createProduct] answers 500 and
    the pen is stored all the same. *)
Lemma lost_reply_keeps_the_write :
  run (rt := exampleRuntime) (createProduct (request pen None []))
    {| docs := []; next_id := 0; fault := Some (ReplyLost timedOut) |}
  = Some ({| status := 500;
             payload := object [("message", JString "Server error");
                                ("error", JString (String_ timedOut))] |},
          {| docs := [penDoc]; next_id := 1;
             fault := Some (ReplyLost timedOut) |}).
Proof. reflexivity. Qed.

Lemma products_enter_and_leave_witness :
  run (rt := exampleRuntime) (createProduct (request pen None [])) emptyDb
  = Some ({| status := 201;
             payload := object
               [("message", JString "Product created successfully");
                ("product", toJSON penDoc)] |}, shop)
  ∧ ∃ d, docs shop = (docs emptyDb ++ [d])%list
         ∧ object [("message", JString "Product created successfully");
                   ("product", toJSON penDoc)]
           = object [("message", JString "Product created successfully");
                     ("product", toJSON d)].
Proof.
  split; [reflexivity|].
  apply (proj1 (products_enter_and_leave (rt := exampleRuntime) Create_
                  (request pen None []) emptyDb shop
                  {| status := 201;
                     payload := object
                       [("message", JString "Product created successfully");
                        ("product", toJSON penDoc)] |} eq_refl));
    reflexivity.
Defined.


(** ** How requests compose *)

Lemma replaceDoc_same (n : N) (d : Document) (l : list Document) :
  findDoc n l = Some d -> replaceDoc n d l = l.
Proof.
  unfold findDoc. induction l as [|x l IH]; simpl; [done|].
  destruct (_id x =? n); [by intros [= ->]|]. intros H. by rewrite IH.
Qed.

Section Composition.
Context {rt : Runtime}.

Lemma other_product_kept (op : Operation) (req : Request) (db db' : Db)
    (r : Response) (m : N) (d : Document) :
  run (handler op req) db = Some (r, db') ->
  findDoc m (docs db) = Some d ->
  (op = Update ∨ op = Delete -> addressesOther req m) ->
  findDoc m (docs db') = Some d ∧ fault db' = fault db.
Proof.
  intros Hrun Hd Hother.
  destruct (run_write_inv _ _ _ _ _ Hrun)
    as [[-> _]
       |[(-> & d0 & _ & _ & -> & _)
        |[(-> & i & n & o & d0 & Hi & Hn & _ & _ & _ & Hd0 & -> & _)
         |(-> & i & n & d0 & Hi & Hn & _ & -> & _)]]]; [done|..].
  - cbn [docs fault]. split; [by apply findDoc_app_found|done].
  - cbn [docs fault]. split; [|done]. rewrite findDoc_replaceDoc_ne; [done| |].
    + intros ->. by apply (Hother ltac:(by left) i).
    + by destruct (findDoc_Some _ _ _ Hd0).
  - cbn [docs fault]. split; [|done]. rewrite findDoc_removeDoc_ne; [done|].
    intros ->. by apply (Hother ltac:(by right) i).
Qed.

(** X5. A stored product is changed or removed only by a request that
    names it. Whatever a handler does -- an update or a delete under
    another identifier, a create, a read -- [getProductById] answers for
    the product afterwards what it answered before. *)
Theorem other_products_untouched (op : Operation) (req : Request)
    (db db' : Db) (r : Response) (id : string) (m : N) (d : Document) :
  run (handler op req) db = Some (r, db') ->
  ObjectId.fromString id = Some m ->
  findDoc m (docs db) = Some d -> fault db = None ->
  (op = Update ∨ op = Delete -> addressesOther req m) ->
  ∀ req', params req' !! "id" = Some id ->
    run (getProductById req') db
    = Some ({| status := 200; payload := toJSON d |}, db)
    ∧ run (getProductById req') db'
      = Some ({| status := 200; payload := toJSON d |}, db').
Proof.
  intros Hrun Hm Hd Hf Hother req' Hid.
  destruct (other_product_kept _ _ _ _ _ _ _ Hrun Hd Hother) as [Hd' Hf'].
  split.
  - rewrite (run_getProductById _ _ _ _ Hid Hm Hf). by rewrite Hd.
  - rewrite (run_getProductById _ _ _ _ Hid Hm) by congruence.
    by rewrite Hd'.
Qed.

(** X6. What [updateProduct] returns is what is stored: when it answers
    200, [getProductById] with the same identifier answers 200 with the
    very product the update's response carries. *)
Theorem updateProduct_then_getProductById (req : Request) (id : string)
    (db db' : Db) (r : Response) :
  params req !! "id" = Some id ->
  run (updateProduct req) db = Some (r, db') ->
  status r = 200 ->
  ∃ p,
    payload r
    = object [("message", JString "Product updated successfully");
              ("product", toJSON p)]
    ∧ ∀ req', params req' !! "id" = Some id ->
        run (getProductById req') db'
        = Some ({| status := 200; payload := toJSON p |}, db').
Proof.
  intros Hid Hrun Hst.
  destruct (run_write_inv Update _ _ _ _ Hrun)
    as [[-> Hwhy]
       |[(H & _)
        |[(_ & i & n & o & d & Hi & Hn & _ & _ & _ & Hd & -> & Hr)
         |(H & _)]]]; [|discriminate H| |discriminate H].
  - destruct Hwhy as [H|[H|[H|[H|H]]]]; try discriminate H; congruence.
  - destruct Hr as [[Hf ->]|[_ H]]; [|congruence].
    eexists. split; [reflexivity|]. intros req' Hid'.
    rewrite Hid in Hi. injection Hi as <-.
    rewrite (run_getProductById _ _ _ _ Hid' Hn) by done. cbn [docs].
    rewrite (findDoc_replaceDoc _ d); [done|done|].
    by destruct (findDoc_Some _ _ _ Hd).
Qed.

(** X7. A deleted product stays deleted for the writes too: once
    [deleteProduct] has answered 200, deleting the identifier again
    answers 404 "Product not found", and so does an update the model
    accepts; neither changes the collection. *)
Theorem deleteProduct_then_write (req : Request) (id : string)
    (db db' : Db) (r : Response) :
  params req !! "id" = Some id ->
  wf db ->
  run (deleteProduct req) db = Some (r, db') ->
  status r = 200 ->
  ∀ req', params req' !! "id" = Some id ->
    run (deleteProduct req') db'
    = Some ({| status := 404; payload := message "Product not found" |}, db')
    ∧ (updateAccepted (body req') ->
       run (updateProduct req') db'
       = Some ({| status := 404; payload := message "Product not found" |},
               db')).
Proof.
  intros Hid [Hnd _] Hrun Hst req' Hid'.
  destruct (run_write_inv Delete _ _ _ _ Hrun)
    as [[-> Hwhy]
       |[(H & _)
        |[(H & _)
         |(_ & i & n & d & Hi & Hn & Hd & -> & Hr)]]];
    [|discriminate H|discriminate H|].
  - destruct Hwhy as [H|[H|[H|[H|H]]]]; try discriminate H; congruence.
  - destruct Hr as [[Hf ->]|[_ H]]; [|congruence].
    rewrite Hid in Hi. injection Hi as <-.
    assert (Hv : isValidObjectId (Some id) = true)
      by (apply isValidObjectId_spec; eauto).
    assert (Hmiss : id_missing (Some id) = false)
      by (destruct id; [discriminate Hv|done]).
    assert (Hgone : findDoc n (removeDoc n (docs db)) = None)
      by (by apply findDoc_removeDoc).
    split.
    + unfold deleteProduct. rewrite Hid', Hv, Hmiss. cbn [negb].
      rewrite run_try_await. cbn [perform].
      unfold Product_findByIdAndDelete, castId, roundTrip.
      rewrite Hn. cbn [fault docs next_id]. rewrite Hf, Hgone. cbn [run json].
      by rewrite removeDoc_notfound.
    + intros Hacc.
      rewrite (updateProduct_valid_id _ _ Hid' Hv), run_try_await.
      cbn [perform].
      destruct (update_accepted id n (body req')
                  {| docs := removeDoc n (docs db); next_id := next_id db;
                     fault := fault db |} Hn Hacc Hf) as (o & _ & ->).
      cbn [docs]. by rewrite Hgone.
Qed.

(** X8. A created product is listed. After a valid payload has been
    created, [getProducts] without parameters answers 200 with the products
    that were stored before, in their order, followed by the new one. *)
Theorem createProduct_then_getProducts (req : Request) (db : Db)
    name brand category price :
  validPayload (body req) name brand category price ->
  fault db = None ->
  ∃ doc db',
    run (createProduct req) db
    = Some ({| status := 201;
               payload := object
                 [("message", JString "Product created successfully");
                  ("product", toJSON doc)] |}, db')
    ∧ ∀ req', query req' = ∅ ->
        run (getProducts req') db'
        = Some ({| status := 200;
                   payload := JArray (toJSON <$> (docs db ++ [doc])%list) |},
                db').
Proof.
  intros Hv Hf.
  destruct (hydrate_valid _ _ _ _ _ Hv) as [Herr Hcast].
  assert (Hpass : passesHandler (body req)).
  { destruct Hv as [[Hn Hne] [Hr Hre] [Hc Hce] [Hp Hpe] Hs].
    unfold passesHandler. rewrite Hn, Hr, Hc, Hp.
    destruct (body req); try discriminate Hn.
    destruct name, brand, category; done. }
  rewrite (createProduct_passes _ Hpass), run_try_await. cbn [perform].
  unfold Product_create. rewrite hydrate_createArg, Herr.
  unfold roundTrip. rewrite Hf. cbn [run json].
  eexists _, _. split; [reflexivity|]. intros req' Hq.
  unfold getProducts. rewrite run_try_await. cbn [perform].
  rewrite (Product_find_accepted _ ∅);
    [|by rewrite Hq, fmap_empty|apply map_Forall_empty|done].
  cbn [docs]. rewrite filter_all.
  - destruct (docs db); reflexivity.
  - intros d. apply matchesAll_spec. apply map_Forall_empty.
Qed.

(** X9. An update that names no path of the schema -- an absent or empty
    payload, or one with unknown keys only -- is answered like any other:
    for a stored product [updateProduct] answers 200
    "Product updated successfully" with the product as it was, and the
    collection is unchanged. *)
Theorem updateProduct_without_fields (req : Request) (id : string) (n : N)
    (db : Db) (d : Document) (o : gmap string JsValue) :
  params req !! "id" = Some id ->
  ObjectId.fromString id = Some n ->
  findDoc n (docs db) = Some d -> fault db = None ->
  updateFields (body req) = Some o ->
  (∀ k, is_Some (schema_path k) -> o !! k = None) ->
  run (updateProduct req) db
  = Some ({| status := 200;
             payload := object
               [("message", JString "Product updated successfully");
                ("product", toJSON d)] |}, db).
Proof.
  intros Hid Hn Hd Hf Ho Hnone.
  assert (Hv : isValidObjectId (Some id) = true)
    by (apply isValidObjectId_spec; eauto).
  assert (Hsets : castUpdate o = []).
  { apply elem_of_nil_inv. intros [[[k st] v] c] Hin.
    apply castUpdate_elem in Hin as (Hs & -> & Hv' & _).
    apply schema_path_elem in Hs. rewrite Hnone in Hv'; [done|eauto]. }
  rewrite (updateProduct_valid_id _ _ Hid Hv), run_try_await. cbn [perform].
  unfold Product_findByIdAndUpdate, castId, roundTrip.
  rewrite Ho, Hn, Hsets. cbn. rewrite Hf, Hd. cbn.
  assert ({| _id := _id d; fields := fields d |} = d) as -> by (by destruct d).
  rewrite replaceDoc_same by done. rewrite <- Hf. by rewrite Db_eta.
Qed.

End Composition.

Lemma other_products_untouched_witness :
  run (rt := exampleRuntime)
    (deleteProduct (request JUndefined (Some inkId) [])) stock
  = Some ({| status := 200;
             payload := message "Product deleted successfully" |},
          {| docs := removeDoc 1 (docs stock); next_id := 2; fault := None |})
  ∧ run (rt := exampleRuntime)
      (getProductById (request JUndefined (Some penId) []))
      {| docs := removeDoc 1 (docs stock); next_id := 2; fault := None |}
    = Some ({| status := 200; payload := toJSON penDoc |},
            {| docs := removeDoc 1 (docs stock); next_id := 2;
               fault := None |}).
Proof.
  split; [reflexivity|].
  apply (other_products_untouched (rt := exampleRuntime) Delete
           (request JUndefined (Some inkId) []) stock _
           {| status := 200;
              payload := message "Product deleted successfully" |}
           penId 0 penDoc eq_refl eq_refl eq_refl eq_refl).
  - intros _ s Hs. cbn [params request] in Hs.
    apply lookup_singleton_Some in Hs as [_ <-]. discriminate.
  - reflexivity.
Defined.

Lemma updateProduct_then_getProductById_witness :
  ∃ p,
    object [("message", JString "Product updated successfully");
            ("product", toJSON repricedPen)]
    = object [("message", JString "Product updated successfully");
              ("product", toJSON p)]
    ∧ run (rt := exampleRuntime)
        (getProductById (request JUndefined (Some penId) []))
        {| docs := [repricedPen]; next_id := 1; fault := None |}
      = Some ({| status := 200; payload := toJSON p |},
              {| docs := [repricedPen]; next_id := 1; fault := None |}).
Proof.
  destruct (updateProduct_then_getProductById (rt := exampleRuntime)
              (request (object [("price", JNumber (Finite 2))]) (Some penId) [])
              penId shop
              {| docs := [repricedPen]; next_id := 1; fault := None |}
              {| status := 200;
                 payload := object
                   [("message", JString "Product updated successfully");
                    ("product", toJSON repricedPen)] |}
              eq_refl eq_refl eq_refl) as (p & Hpay & Hget).
  exists p. split; [exact Hpay|]. apply Hget. reflexivity.
Defined.

Lemma deleteProduct_then_write_witness :
  run (rt := exampleRuntime)
    (deleteProduct (request JUndefined (Some penId) []))
    {| docs := removeDoc 0 (docs shop); next_id := 1; fault := None |}
  = Some ({| status := 404; payload := message "Product not found" |},
          {| docs := removeDoc 0 (docs shop); next_id := 1; fault := None |})
  ∧ run (rt := exampleRuntime)
      (updateProduct
         (request (object [("price", JNumber (Finite 2))]) (Some penId) []))
      {| docs := removeDoc 0 (docs shop); next_id := 1; fault := None |}
    = Some ({| status := 404; payload := message "Product not found" |},
            {| docs := removeDoc 0 (docs shop); next_id := 1;
               fault := None |}).
Proof.
  assert (Hwf : wf shop)
    by (split; [apply NoDup_singleton|apply Forall_singleton; reflexivity]).
  split.
  - apply (proj1 (deleteProduct_then_write (rt := exampleRuntime)
             (request JUndefined (Some penId) []) penId shop _
             {| status := 200;
                payload := message "Product deleted successfully" |}
             eq_refl Hwf eq_refl eq_refl
             (request JUndefined (Some penId) []) eq_refl)).
  - apply (proj2 (deleteProduct_then_write (rt := exampleRuntime)
             (request JUndefined (Some penId) []) penId shop _
             {| status := 200;
                payload := message "Product deleted successfully" |}
             eq_refl Hwf eq_refl eq_refl
             (request (object [("price", JNumber (Finite 2))])
                (Some penId) []) eq_refl)).
    exists (<["price" := JNumber (Finite 2)]> ∅). split_and!; reflexivity.
Defined.

Lemma createProduct_then_getProducts_witness :
  ∃ doc db',
    run (rt := exampleRuntime) (createProduct (request pen None [])) shop
    = Some ({| status := 201;
               payload := object
                 [("message", JString "Product created successfully");
                  ("product", toJSON doc)] |}, db')
    ∧ run (rt := exampleRuntime) (getProducts (request JUndefined None []))
        db'
      = Some ({| status := 200;
                 payload := JArray (toJSON <$> (docs shop ++ [doc])%list) |},
              db').
Proof.
  destruct (createProduct_then_getProducts (rt := exampleRuntime)
              (request pen None []) shop
              "Pen" "Acme" "Stationery" (Finite (3 # 2)))
    as (doc & db' & Hrun & Hlist).
  - split; try (split; [reflexivity|discriminate]).
    + split; reflexivity.
    + left. reflexivity.
  - reflexivity.
  - exists doc, db'. split; [exact Hrun|]. apply Hlist. reflexivity.
Defined.

Lemma updateProduct_without_fields_witness :
  run (rt := exampleRuntime)
    (updateProduct
       (request (object [("color", JString "red")]) (Some penId) [])) shop
  = Some ({| status := 200;
             payload := object
               [("message", JString "Product updated successfully");
                ("product", toJSON penDoc)] |}, shop)
  ∧ run (rt := exampleRuntime)
      (updateProduct (request JUndefined (Some penId) [])) shop
    = Some ({| status := 200;
               payload := object
                 [("message", JString "Product updated successfully");
                  ("product", toJSON penDoc)] |}, shop).
Proof.
  pose (o := (<["color" := JString "red"]> ∅ : gmap string JsValue)).
  split.
  - apply (updateProduct_without_fields (rt := exampleRuntime)
             (request (object [("color", JString "red")]) (Some penId) [])
             penId 0 shop penDoc o
             eq_refl eq_refl eq_refl eq_refl eq_refl).
    intros k [st Hk]. unfold o. destruct (decide (k = "color")) as [->|Hne].
    + discriminate Hk.
    + rewrite lookup_insert_ne; [apply lookup_empty|congruence].
  - apply (updateProduct_without_fields (rt := exampleRuntime)
             (request JUndefined (Some penId) [])
             penId 0 shop penDoc ∅ eq_refl eq_refl eq_refl eq_refl eq_refl).
    intros k _. apply lookup_empty.
Defined.


(** ** What the handler's checks spare the schema *)

Section Texts.
Context {rt : Runtime}.

(** X10. [createProduct] never fails on a missing or empty text. Once its
    own checks have passed, the only error [Product.create] can raise on
    [name], [brand] or [category] is the failed cast of an array or an
    object: the schema's "Name Required", "Brand Required" and
    "Category Required" are never the reason of a 500 of this handler
    (numbers are given as texts by a runtime that writes no number as the
    empty string). *)
Theorem createProduct_texts_never_required (req : Request) path msg :
  passesHandler (body req) ->
  (∀ n, get (body req) path = JNumber n -> NumberToString n ≠ EmptyString) ->
  (path, msg) ∈ errorsOf (hydrate (body req)) ->
  path = "name" ∨ path = "brand" ∨ path = "category" ->
  castString (get (body req) path) = CastFailed
  ∧ msg = castMessage "string" (get (body req) path) path
  ∧ msg ≠ "Name Required" ∧ msg ≠ "Brand Required"
  ∧ msg ≠ "Category Required".
Proof.
  intros (Hb & Hn & Hr & Hc & _) Hnum Hin Hpath.
  apply errorsOf_inv in Hin as (st & v & c & Hin & Herr).
  apply hydrate_elem in Hin as (Hs & -> & ->).
  assert (Htruthy : truthy (get (body req) path) = true)
    by (destruct Hpath as [->|[->| ->]]; done).
  assert (Hst : st_type st = SchemaString ∧ st_default st = None
                ∧ ∃ required, st_required st = Some required
                              ∧ st_min st = None).
  { unfold productSchema in Hs. rewrite !elem_of_cons in Hs.
    destruct Hs as [Hs|[Hs|[Hs|[Hs|[Hs|Hs]]]]];
      [..|by apply elem_of_nil in Hs];
      injection Hs as -> ->; [by eauto..| |];
      destruct Hpath as [H|[H|H]]; discriminate H. }
  destruct Hst as (Hty & Hdef & required & Hreq & Hmin).
  unfold pathError, applyDefault, doValidate in Herr.
  rewrite Hty, Hdef, Hreq, Hmin in Herr. cbn [cast] in Herr.
  assert (Hcast : castString (get (body req) path) = CastFailed
                  ∧ msg = castMessage "string" (get (body req) path) path).
  { destruct (get (body req) path) as [| |[]|n|[|a s]|l|o] eqn:Hv;
      try discriminate Htruthy; cbn in Herr; try discriminate Herr.
    - destruct (NumberToString n) eqn:Hs'; [by destruct (Hnum n)|].
      discriminate Herr.
    - split; [done|]. by injection Herr as <-.
    - cbn [castString].
      destruct (o !! "_id") as [[| | | |[|a s]| |]|]; cbn in Herr;
        try discriminate Herr; (split; [done|]; by injection Herr as <-). }
  destruct Hcast as [Hcast ->]. split_and!; try done;
    unfold castMessage; cbn; discriminate.
Qed.

End Texts.

Lemma createProduct_texts_never_required_witness :
  ("name",
   castMessage (rt := exampleRuntime) "string" (JArray [JString "Pen"]) "name")
  ∈ errorsOf (rt := exampleRuntime)
      (hydrate (rt := exampleRuntime)
         (object [("name", JArray [JString "Pen"]); ("brand", JString "Acme");
                  ("category", JString "Stationery");
                  ("price", JNumber (Finite 1))]))
  ∧ castMessage (rt := exampleRuntime) "string" (JArray [JString "Pen"]) "name"
    ≠ "Name Required".
Proof.
  assert (H : ("name",
               castMessage (rt := exampleRuntime) "string"
                 (JArray [JString "Pen"]) "name")
              ∈ errorsOf (rt := exampleRuntime)
                  (hydrate (rt := exampleRuntime)
                     (object [("name", JArray [JString "Pen"]);
                              ("brand", JString "Acme");
                              ("category", JString "Stationery");
                              ("price", JNumber (Finite 1))])))
    by (apply elem_of_cons; by left).
  split; [exact H|].
  apply (createProduct_texts_never_required (rt := exampleRuntime)
           (request (object [("name", JArray [JString "Pen"]);
                             ("brand", JString "Acme");
                             ("category", JString "Stationery");
                             ("price", JNumber (Finite 1))]) None [])
           "name" _); [|discriminate|exact H|by left].
  split_and!; (reflexivity || discriminate).
Defined.

(** ** What is stored *)

Section Strict.
Context {rt : Runtime}.

(** X11. Nothing but the schema is stored. If every stored product holds
    only paths of the schema, it is so after any request: a key of a
    payload that the schema does not know is never written, neither by
    [createProduct], which passes five fields on, nor by
    [updateProduct]. *)
Theorem handlers_store_schema_paths_only (op : Operation) (req : Request)
    (db db' : Db) (r : Response) :
  run (handler op req) db = Some (r, db') ->
  Forall onlySchemaPaths (docs db) -> Forall onlySchemaPaths (docs db').
Proof.
  intros Hrun Hall.
  destruct (run_write_inv _ _ _ _ _ Hrun)
    as [[-> _]
       |[(-> & d0 & _ & -> & -> & _)
        |[(-> & i & n & o & d & _ & _ & _ & _ & _ & Hd & -> & _)
         |(-> & i & n & d & _ & _ & _ & -> & _)]]]; [done|..].
  - cbn [docs].
    apply Forall_app. split; [done|]. apply Forall_singleton.
    intros k [b Hk]. cbn [fields] in Hk.
    destruct (decide (k = versionKey)) as [->|Hne]; [by eexists|].
    rewrite lookup_insert_ne in Hk by done.
    apply elem_of_list_to_map_2, castedOf_elem in Hk as (st & v & Hk).
    apply hydrate_elem in Hk as (Hs & _).
    exists st. apply schema_path_elem. by apply productSchema_paths.
  - cbn [docs].
    apply Forall_replaceDoc; [done|].
    destruct (findDoc_Some _ _ _ Hd) as [Hdin _].
    rewrite Forall_forall in Hall. specialize (Hall _ Hdin).
    intros k Hk. cbn [fields] in Hk.
    destruct (decide (k ∈ (castedOf (castUpdate o)).*1)) as [Hin|Hout].
    + apply list_elem_of_fmap in Hin as ([k' b] & -> & Hin).
      apply castedOf_elem in Hin as (st & v & Hin).
      apply castUpdate_elem in Hin as (Hs & _).
      exists st. by apply schema_path_elem.
    + rewrite lookup_setFields_notin in Hk by done. by apply Hall.
  - cbn [docs].
    rewrite Forall_forall in *. intros d' Hd'. apply Hall.
    by apply (sublist_subseteq _ _ (removeDoc_sublist n (docs db))).
Qed.

End Strict.

(** The red pen is stored as the pen: its colour is not. *)
Lemma handlers_store_schema_paths_only_witness :
  run (rt := exampleRuntime) (createProduct (request redPen None [])) emptyDb
  = Some ({| status := 201;
             payload := object
               [("message", JString "Product created successfully");
                ("product", toJSON penDoc)] |}, shop)
  ∧ Forall onlySchemaPaths (docs shop).
Proof.
  split; [reflexivity|].
  apply (handlers_store_schema_paths_only (rt := exampleRuntime) Create_
           (request redPen None []) emptyDb shop
           {| status := 201;
              payload := object
                [("message", JString "Product created successfully");
                 ("product", toJSON penDoc)] |} eq_refl).
  apply Forall_nil_2.
Defined.
